(** * Stock-Market-Trends: ingestion, moving averages, candlestick projection

    A shallow embedding of [StockTrends.py].

    - [get_data] (lines 51-126) reads every file of a directory with
      [pd.read_csv], keeps the rows whose ["Date"] string lies strictly
      after [start_date] and at or before [end_date], turns the kept
      date strings into [pd.Timestamp]s and stores the frame under
      [file_name[:-4]].
    - [get_SMA] (lines 254-317) and [get_EMA] (lines 324-394) compute the
      simple and the exponential moving average of a close series.
    - lines 200-208 build [ADI_candle], the frame given to
      [candlestick_ohlc].

    Python exceptions are values of [exn] carried by the [result] monad.
    Prices live in a type with the interface [Number]: numpy's binary64
    ([float_Number]), on which the script runs; numpy's numbers of
    either kind, [int64] and [float64] ([np_number_Number]); and exact
    rationals ([Q_Number]), the same arithmetic without rounding and
    without missing prices.  [np.sum] of a series is pandas' sum, which
    takes a missing price as zero, over numpy's, which adds eight
    elements or more in blocks.  A pandas [Series] is the list of its
    (timestamp, value) pairs with its name; an integer in brackets reads
    such a series by position.  The files hold one row per day, and a
    timestamp is a calendar date.  What [pd.read_csv] makes of a file and
    what [listdir] lists are inputs of [get_data]; [pd.Timestamp] is a
    parameter of it, with [iso_Timestamp] for the dates of the files. *)

From Stdlib Require Import ZArith QArith Lia Lqa List Ascii String.
From Stdlib Require Import PrimFloat Uint63.
From stdpp Require Import base decidable option list list_numbers.
From stdpp Require Import strings pretty gmap sorting.

Local Open Scope Z_scope.

(** ** Exceptions and the result monad *)

Inductive exn : Set :=
  | IndexError          (* position out of bounds *)
  | ValueError          (* length mismatch in [pd.Series]; unparseable date *)
  | KeyError            (* no ["Date"] column *)
  | ParserError         (* [pd.read_csv] could not read the file *)
  | ZeroDivisionError.  (* Python float divided by a zero int *)

Inductive result (A : Type) : Type :=
  | Ok (a : A)
  | Raise (e : exn).
Arguments Ok {A} a.
Arguments Raise {A} e.

#[global] Instance result_ret : MRet result := fun _ a => Ok a.
#[global] Instance result_bind : MBind result := fun _ _ f m =>
  match m with
  | Ok a => f a
  | Raise e => Raise e
  end.

Definition is_Ok {A} (r : result A) : bool :=
  match r with Ok _ => true | Raise _ => false end.

(** [for x in xs: s = body(s, x)], stopping at the first exception. *)
Fixpoint for_loop {S X : Type} (body : S -> X -> result S)
    (xs : list X) (s : S) : result S :=
  match xs with
  | [] => Ok s
  | x :: xs' => s' ← body s x; for_loop body xs' s'
  end.

(** ** Numbers *)

(** What the two functions do with prices: the operators [+], [-], [*],
    [/] and [<=], the value of a Python number beside a price, and
    [isnan], which tells the missing prices. *)
Class Number (A : Type) : Type := {
  zero : A;
  add : A -> A -> A;
  sub : A -> A -> A;
  mul : A -> A -> A;
  div : A -> A -> A;
  leb : A -> A -> bool;
  of_int : Z -> A;
  isnan : A -> bool
}.

(** Exact rational arithmetic: nothing is rounded and no price is
    missing.  [Qdiv x 0] is [0], where numpy gives [nan] or [inf]: the
    instance is the script's arithmetic only where no divisor is zero. *)
#[global] Instance Q_Number : Number Q := {|
  zero := 0%Q;
  add := Qplus;
  sub := Qminus;
  mul := Qmult;
  div := Qdiv;
  leb := Qle_bool;
  of_int := inject_Z;
  isnan := fun _ => false
|}.

(** IEEE 754 binary64, numpy's [float64]. *)
Definition float_of_int (z : Z) : float :=
  if z <? 0 then PrimFloat.opp (PrimFloat.of_uint63 (Uint63.of_Z (- z)))
  else PrimFloat.of_uint63 (Uint63.of_Z z).

#[global] Instance float_Number : Number float := {|
  zero := PrimFloat.zero;
  add := PrimFloat.add;
  sub := PrimFloat.sub;
  mul := PrimFloat.mul;
  div := PrimFloat.div;
  leb := PrimFloat.leb;
  of_int := float_of_int;
  isnan := PrimFloat.is_nan
|}.

(** The values of a numeric series as numpy holds them: [int64], a
    whole number from [- 2 ^ 63] to [2 ^ 63 - 1], when every cell of the
    file is a whole number, [float64] otherwise.  A series holds values
    of one kind. *)
Inductive np_number : Set :=
  | np_int64 (z : Z)
  | np_float64 (f : float).

(** The [int64] that holds [z]: overflow wraps around. *)
Definition wrap_int64 (z : Z) : Z := (z + 2 ^ 63) mod 2 ^ 64 - 2 ^ 63.

(** [np.float64(x)]. *)
Definition to_float64 (x : np_number) : float :=
  match x with
  | np_int64 z =>
      if z =? - 2 ^ 63 then PrimFloat.opp 0x1p+63%float else float_of_int z
  | np_float64 f => f
  end.

(** The whole number an [int64] holds. *)
Definition int64_value (x : np_number) : Z :=
  match x with
  | np_int64 z => z
  | np_float64 _ => 0
  end.

(** An operator at two numpy numbers: on two [int64] it stays in
    [int64], any other pair is taken to [float64]. *)
Definition np_binary (int_op : Z -> Z -> Z) (float_op : float -> float -> float)
    (x y : np_number) : np_number :=
  match x, y with
  | np_int64 a, np_int64 b => np_int64 (wrap_int64 (int_op a b))
  | _, _ => np_float64 (float_op (to_float64 x) (to_float64 y))
  end.

(** [/] is numpy's [true_divide]: its result is a [float64] for every
    pair.  A Python number beside a price acts as its [float64] value.
    The zero at which a sum starts, and which stands in for a missing
    price, is the integer: added to a [float64] it is [0.0], and every
    sum of [get_SMA] is divided, which makes it a [float64]. *)
#[global] Instance np_number_Number : Number np_number := {|
  zero := np_int64 0;
  add := np_binary Z.add PrimFloat.add;
  sub := np_binary Z.sub PrimFloat.sub;
  mul := np_binary Z.mul PrimFloat.mul;
  div := fun x y => np_float64 (PrimFloat.div (to_float64 x) (to_float64 y));
  leb := fun x y =>
    match x, y with
    | np_int64 a, np_int64 b => a <=? b
    | _, _ => PrimFloat.leb (to_float64 x) (to_float64 y)
    end;
  of_int := fun z => np_float64 (float_of_int z);
  isnan := fun x =>
    match x with
    | np_int64 _ => false
    | np_float64 f => PrimFloat.is_nan f
    end
|}.

(** ** Python sequences *)

(** [range(start, stop)]. *)
Definition range (start stop : Z) : list Z := seqZ start (stop - start).

(** [len(l)]. *)
Definition len {X} (l : list X) : Z := Z.of_nat (length l).

(** [l[i]] for an integer [i]: negative positions count from the end. *)
Definition getitem {X} (l : list X) (i : Z) : result X :=
  let j := if i <? 0 then len l + i else i in
  if j <? 0 then Raise IndexError
  else match l !! Z.to_nat j with
       | Some x => Ok x
       | None => Raise IndexError
       end.

(** [l[start:]]. *)
Definition slice_from {X} (l : list X) (start : Z) : list X :=
  let s := if start <? 0 then Z.max 0 (len l + start) else start in
  drop (Z.to_nat s) l.

(** [l[:stop]]. *)
Definition slice_to {X} (l : list X) (stop : Z) : list X :=
  let s := if stop <? 0 then Z.max 0 (len l + stop) else stop in
  take (Z.to_nat s) l.

(** ** Calendar dates

    The files hold one row per trading day, so a [pd.Timestamp] of the
    index is a calendar date.  Python builds no invalid date: validity is
    part of the type.  The calendar functions are those of Python's
    [datetime] module. *)

Definition is_leap (year : Z) : bool :=
  (year mod 4 =? 0) && (negb (year mod 100 =? 0) || (year mod 400 =? 0)).

Definition DAYS_IN_MONTH : list Z :=
  [-1; 31; 28; 31; 30; 31; 30; 31; 31; 30; 31; 30; 31].

Definition DAYS_BEFORE_MONTH : list Z :=
  [-1; 0; 31; 59; 90; 120; 151; 181; 212; 243; 273; 304; 334].

Definition days_in_month (year month : Z) : Z :=
  if (month =? 2) && is_leap year then 29
  else nth (Z.to_nat month) DAYS_IN_MONTH (-1).

Definition days_before_year (year : Z) : Z :=
  let y := year - 1 in y * 365 + y / 4 - y / 100 + y / 400.

Definition days_before_month (year month : Z) : Z :=
  nth (Z.to_nat month) DAYS_BEFORE_MONTH (-1)
  + (if (2 <? month) && is_leap year then 1 else 0).

Definition ymd2ord (year month day : Z) : Z :=
  days_before_year year + days_before_month year month + day.

Definition valid_date (year month day : Z) : bool :=
  (1 <=? year) && (year <=? 9999) && (1 <=? month) && (month <=? 12)
  && (1 <=? day) && (day <=? days_in_month year month).

Record Timestamp : Set := mkTimestamp {
  year : Z;
  month : Z;
  day : Z;
  Timestamp_valid : Is_true (valid_date year month day)
}.

(** Earlier-than on timestamps: year, then month, then day. *)
Definition Timestamp_ltb (a b : Timestamp) : bool :=
  (year a <? year b)
  || ((year a =? year b)
      && ((month a <? month b)
          || ((month a =? month b) && (day a <? day b)))).

Definition Timestamp_lt (a b : Timestamp) : Prop :=
  Is_true (Timestamp_ltb a b).

(** [ts.toordinal()]: day 1 is 0001-01-01. *)
Definition toordinal (ts : Timestamp) : Z :=
  ymd2ord (year ts) (month ts) (day ts).

(** [mdates.date2num] at a date: the whole days since matplotlib's
    epoch, at which the ordinal is 1. *)
Definition date2num (ts : Timestamp) : Z := toordinal ts.

Definition make_Timestamp (y m d : Z) : result Timestamp :=
  match decide (Is_true (valid_date y m d)) with
  | left ok => Ok (mkTimestamp y m d ok)
  | right _ => Raise ValueError
  end.

(** The value of a decimal digit. *)
Definition digit (c : ascii) : option Z :=
  let n := Z.of_N (N_of_ascii c) in
  if (48 <=? n) && (n <=? 57) then Some (n - 48) else None.

(** The number written by a list of digits. *)
Fixpoint number (acc : Z) (cs : list ascii) : option Z :=
  match cs with
  | [] => Some acc
  | c :: cs' => d ← digit c; number (10 * acc + d) cs'
  end.

(** The days pandas has a timestamp for: 1677-09-22 to 2262-04-11. *)
Definition in_bounds (y m d : Z) : bool :=
  let n := y * 10000 + m * 100 + d in (16770922 <=? n) && (n <=? 22620411).

(** [pd.Timestamp] on the format of the input files, [YYYY-MM-DD];
    any other string is taken as unparseable. *)
Definition iso_Timestamp (s : string) : result Timestamp :=
  match String.list_ascii_of_string s with
  | [y1; y2; y3; y4; h1; m1; m2; h2; d1; d2] =>
      if Ascii.eqb h1 "-" && Ascii.eqb h2 "-" then
        match number 0 [y1; y2; y3; y4], number 0 [m1; m2],
              number 0 [d1; d2] with
        | Some y, Some m, Some d =>
            if in_bounds y m d then make_Timestamp y m d
            else Raise ValueError
        | _, _, _ => Raise ValueError
        end
      else Raise ValueError
  | _ => Raise ValueError
  end.

(** ** pandas Series *)

Record Series (A : Type) : Type := mkSeries {
  name : string;
  items : list (Timestamp * A)
}.
Arguments mkSeries {A} name items.
Arguments name {A} s.
Arguments items {A} s.

Definition index {A} (s : Series A) : list Timestamp := (items s).*1.
Definition values {A} (s : Series A) : list A := (items s).*2.

(** [pd.Series(data, name = label, index = dates)]: the lengths must
    agree. *)
Definition pd_Series {A} (data : list A) (label : string)
    (dates : list Timestamp) : result (Series A) :=
  if decide (length data = length dates)
  then Ok (mkSeries label (zip dates data))
  else Raise ValueError.

Section MovingAverages.
Context {A : Type} `{Number A}.

(** [s.iloc[positions]] for a list of positions. *)
Definition iloc (s : Series A) (positions : list Z) : result (list A) :=
  mapM (getitem (values s)) positions.

(** [np.sum] of a series is the [sum] method of the series.  pandas
    puts 0 in the place of every missing price, and numpy adds up the
    array that results. *)
Definition fillna (l : list A) : list A :=
  (fun x => if isnan x then zero else x) <$> l.

(** numpy's sum of an array of eight elements or more: eight partial
    sums [r[0]] to [r[7]], over which the array is dealt eight elements
    at a time, [r[j] += a[i + j]]. *)
Fixpoint accumulate (blocks : nat) (r a : list A) : list A :=
  match blocks with
  | O => r
  | S blocks' => accumulate blocks' (zip_with add r (take 8 a)) (drop 8 a)
  end.

(** The partial sums are added in pairs, and the elements after the
    last full block of eight are added one by one. *)
Definition unrolled_sum (a : list A) : A :=
  let n := length a in
  let res :=
    match accumulate (n / 8 - 1) (take 8 a) (drop 8 a) with
    | [r0; r1; r2; r3; r4; r5; r6; r7] =>
        add (add (add r0 r1) (add r2 r3)) (add (add r4 r5) (add r6 r7))
    | _ => zero
    end in
  fold_left add (drop (n - n mod 8) a) res.

(** numpy's pairwise sum: fewer than eight elements are added from left
    to right, starting at zero; up to 128 elements go to the eight
    partial sums; a longer array is cut near its middle, at a multiple
    of eight, and the sums of the two parts are added.  [fuel] bounds
    the depth of the cuts; the length of the array is enough. *)
Fixpoint pairwise_sum (fuel : nat) (a : list A) : A :=
  let n := length a in
  if (n <? 8)%nat then fold_left add a zero
  else if (n <=? 128)%nat then unrolled_sum a
  else match fuel with
       | O => unrolled_sum a
       | S fuel' =>
           let n2 := (n / 2 - (n / 2) mod 8)%nat in
           add (pairwise_sum fuel' (take n2 a))
               (pairwise_sum fuel' (drop n2 a))
       end.

(** The reduction starts at zero and adds the pairwise sum to it; on
    an empty array nothing is added.  (Whole numbers are added one by
    one by numpy; their sum is the same in any order, [np_sum_int64].
    Later versions of numpy start a [float64] sum at [-0.0], which
    shows only in the sign of a sum of negative zeros.) *)
Definition np_sum (l : list A) : A :=
  match fillna l with
  | [] => zero
  | a => add zero (pairwise_sum (length a) a)
  end.

(** Lines 292-306, one turn of the loop: [SMA[ii] = avg]. *)
Definition SMA_body (close_data : Series A) (time_period : Z)
    (SMA : list A) (ii : Z) : result (list A) :=
  let index := range ii (ii + time_period) in
  prev_days ← iloc close_data index;
  let summation := np_sum prev_days in
  let avg := div summation (of_int time_period) in
  mret (<[Z.to_nat ii := avg]> SMA).

(** Lines 254-317. *)
Definition get_SMA (close_data : Series A) (time_period : Z)
    : result (Series A) :=
  let SMA := of_int <$> range 0 (len (items close_data) - time_period) in
  SMA ← for_loop (SMA_body close_data time_period) (range 0 (len SMA)) SMA;
  let label := pretty time_period +:+ "-SMA" in
  let dates := slice_from (index close_data) time_period in
  pd_Series SMA label dates.

(** Lines 368-383, one turn of the loop: [EMA[ii] = EMA_temp]. *)
Definition EMA_body (close_data : Series A) (time_period : Z)
    (initial_EMA k : A) (EMA : list A) (ii : Z) : result (list A) :=
  let index := time_period + ii in
  close_temp ← getitem (values close_data) index;
  EMA_temp ←
    (if ii =? 0
     then mret (add (mul (sub close_temp initial_EMA) k) initial_EMA)
     else prev ← getitem EMA (ii - 1);
          mret (add (mul (sub close_temp prev) k) prev));
  mret (<[Z.to_nat ii := EMA_temp]> EMA).

(** Lines 324-394.  [get_SMA(close_data, time_period)[0]] and
    [close_data[index]] read by position, the index holding timestamps;
    [2.0 / 0] raises in Python. *)
Definition get_EMA (close_data : Series A) (time_period : Z)
    : result (Series A) :=
  let EMA := of_int <$> range 0 (len (items close_data) - time_period) in
  sma ← get_SMA close_data time_period;
  initial_EMA ← getitem (values sma) 0;
  k ← (if time_period + 1 =? 0 then Raise ZeroDivisionError
       else mret (div (of_int 2) (of_int (time_period + 1))));
  EMA ← for_loop (EMA_body close_data time_period initial_EMA k)
         (range 0 (len EMA)) EMA;
  let label := pretty time_period +:+ "-EMA" in
  let dates := slice_from (index close_data) time_period in
  pd_Series EMA label dates.

(** *** Windows, means and the recurrence *)

(** The close prices at source positions [[i, i + period)]. *)
Definition window (s : Series A) (period : Z) (i : nat) : list A :=
  take (Z.to_nat period) (drop i (values s)).

(** The arithmetic mean: the numbers added up, divided by how many
    they are. *)
Definition arithmetic_mean (l : list A) : A :=
  div (fold_left add l zero) (of_int (len l)).

(** A sum written out: which numbers are added, and which to which. *)
Inductive summation : Type :=
  | term (x : A)
  | plus (t1 t2 : summation).

Fixpoint terms (t : summation) : list A :=
  match t with
  | term x => [x]
  | plus t1 t2 => terms t1 ++ terms t2
  end.

Fixpoint total (t : summation) : A :=
  match t with
  | term x => x
  | plus t1 t2 => add (total t1) (total t2)
  end.

(** The smoothing factor [2 / (period + 1)]. *)
Definition smoothing (period : Z) : A :=
  div (of_int 2) (of_int (period + 1)).

(** The value the loop of [get_SMA] writes at position [i]. *)
Definition SMA_at (s : Series A) (period : Z) (i : nat) : A :=
  div (np_sum (window s period i)) (of_int period).

(** The close price at source position [j] ([zero] beyond the end). *)
Definition close_at (s : Series A) (j : nat) : A :=
  default zero (values s !! j).

(** One step of the recurrence: [(close - prev) * k + prev]. *)
Definition EMA_step (k close prev : A) : A :=
  add (mul (sub close prev) k) prev.

(** The recurrence unfolded from the seed. *)
Fixpoint EMA_at (s : Series A) (period : nat) (seed k : A) (i : nat) : A :=
  match i with
  | O => EMA_step k (close_at s period) seed
  | S i' => EMA_step k (close_at s (period + i)) (EMA_at s period seed k i')
  end.

(** The least and the greatest element, as Python's [min] and [max]. *)
Definition minimum (l : list A) : option A :=
  match l with
  | [] => None
  | x :: l' => Some (fold_left (fun m y => if leb m y then m else y) l' x)
  end.

Definition maximum (l : list A) : option A :=
  match l with
  | [] => None
  | x :: l' => Some (fold_left (fun m y => if leb y m then m else y) l' x)
  end.

(** [min(w) <= v <= max(w)]. *)
Definition bounded_by (w : list A) (v : A) : bool :=
  match minimum w, maximum w with
  | Some lo, Some hi => leb lo v && leb v hi
  | _, _ => false
  end.

End MovingAverages.

Arguments summation A : clear implicits.
Arguments term {A} x.
Arguments plus {A} t1 t2.

(** ** Data frames and ingestion *)

(** A frame indexed by timestamps: the column labels and, per row, the
    index entry and the cells. *)
Record DataFrame (C : Type) : Type := mkDataFrame {
  columns : list string;
  rows : list (Timestamp * list C)
}.
Arguments mkDataFrame {C} columns rows.
Arguments columns {C} d.
Arguments rows {C} d.

(** What [pd.read_csv] returns: a frame without a ["Date"] column, or
    the ["Date"] strings beside the cells of the other columns. *)
Inductive raw_frame (C : Type) : Type :=
  | Undated (cols : list string) (body : list (list C))
  | Dated (cols : list string) (body : list (string * list C)).
Arguments Undated {C} cols body.
Arguments Dated {C} cols body.

(** [file_name[:-4]]. *)
Definition key_of (file_name : string) : string :=
  String.string_of_list_ascii
    (slice_to (String.list_ascii_of_string file_name) (-4)).

Section Ingestion.
Context {C : Type}.
(** [pd.Timestamp] applied to a string. *)
Variable pd_Timestamp : string -> result Timestamp.

(** A directory: the file names [listdir] gives, each with what
    [pd.read_csv] makes of the file. *)
Definition directory : Type := list (string * result (raw_frame C)).

(** Line 109: Python compares the strings, character by character. *)
Definition mask (start_date end_date : string) (row : string * list C)
    : bool :=
  String.ltb start_date row.1 && String.leb row.1 end_date.

(** Lines 106-121, one file. *)
Definition read_frame (start_date end_date : string)
    (file : result (raw_frame C)) : result (DataFrame C) :=
  df ← file;
  match df with
  | Undated _ _ => Raise KeyError
  | Dated cols body =>
      let body := List.filter (mask start_date end_date) body in
      dates ← mapM pd_Timestamp body.*1;
      mret (mkDataFrame cols (zip dates body.*2))
  end.

(** Lines 104-124, one turn of the loop. *)
Definition get_data_body (start_date end_date : string)
    (data : gmap string (DataFrame C))
    (entry : string * result (raw_frame C))
    : result (gmap string (DataFrame C)) :=
  df ← read_frame start_date end_date entry.2;
  mret (<[key_of entry.1 := df]> data).

(** Lines 51-126. *)
Definition get_data (data_prefix : directory)
    (start_date end_date : string)
    : result (gmap string (DataFrame C)) :=
  for_loop (get_data_body start_date end_date) data_prefix ∅.

End Ingestion.

(** ** Candlestick frame, lines 200-208 *)

Section Candlestick.
Context {A : Type} `{Number A}.

(** [ADI_data.iloc[:, 0:4]] with the ordinals of the index in front. *)
Definition ADI_candle (ADI_data : DataFrame A) : DataFrame A :=
  let candle := (fun r : Timestamp * list A => (r.1, take 4 r.2))
                  <$> rows ADI_data in
  let dates := date2num <$> (rows ADI_data).*1 in
  mkDataFrame ("Date" :: take 4 (columns ADI_data))
    (zip_with (fun d r => (r.1, of_int d :: r.2)) dates candle).

(** [ADI_data.iloc[:, 3]], the close series. *)
Definition close_column (ADI_data : DataFrame A)
    : result (Series A) :=
  vals ← mapM (fun r : Timestamp * list A => getitem r.2 3) (rows ADI_data);
  name ← getitem (columns ADI_data) 3;
  mret (mkSeries name (zip (rows ADI_data).*1 vals)).

End Candlestick.

(** ** Sample data *)

Definition Jan02 : Timestamp := mkTimestamp 2015 1 2 I.
Definition Jan05 : Timestamp := mkTimestamp 2015 1 5 I.
Definition Jan06 : Timestamp := mkTimestamp 2015 1 6 I.
Definition Jan07 : Timestamp := mkTimestamp 2015 1 7 I.
Definition Jan08 : Timestamp := mkTimestamp 2015 1 8 I.
Definition Jan09 : Timestamp := mkTimestamp 2015 1 9 I.
Definition Jan12 : Timestamp := mkTimestamp 2015 1 12 I.
Definition Jan13 : Timestamp := mkTimestamp 2015 1 13 I.
Definition Jan14 : Timestamp := mkTimestamp 2015 1 14 I.
Definition Jan15 : Timestamp := mkTimestamp 2015 1 15 I.
Definition Dec31 : Timestamp := mkTimestamp 2015 12 31 I.

(** Ten trading days. *)
Definition trading_days : list Timestamp :=
  [Jan02; Jan05; Jan06; Jan07; Jan08; Jan09; Jan12; Jan13; Jan14; Jan15].

(** The close prices 1 to 10 on the ten days. *)
Definition close10 : Series Q :=
  mkSeries "Close" (zip trading_days (inject_Z <$> seqZ 1 10)).

(** Four closes at 60.08, in binary64. *)
Definition flat_close : Series float :=
  mkSeries "Close"
    (zip (take 4 trading_days) (replicate 4 0x1.e0a3d70a3d70ap+5%float)).

(** Four closes, the second of them missing. *)
Definition gap_close : Series float :=
  mkSeries "Close" (zip (take 4 trading_days) [1; nan; 3; 4]%float).

(** Nine closes: one at [2 ^ 53], then eight at 1. *)
Definition steep_close : Series float :=
  mkSeries "Close"
    (zip (take 9 trading_days) (0x1p+53 :: replicate 8 1)%float).

(** Four closes in whole numbers, the first two at [2 ^ 62]. *)
Definition whole_close : Series np_number :=
  mkSeries "Close"
    (zip (take 4 trading_days) (np_int64 <$> [2 ^ 62; 2 ^ 62; 1; 1])).

Definition yahoo_columns : list string :=
  ["Open"; "High"; "Low"; "Close"; "Adj Close"; "Volume"].

(** A file in date order, with a row on each end of 2015. *)
Definition in_order : raw_frame Q :=
  Dated yahoo_columns
    [("2015-01-01", [61; 62; 60; 61; 58; 1000]%Q);
     ("2015-01-02", [61; 63; 61; 62; 59; 1200]%Q);
     ("2015-01-05", [62; 64; 61; 63; 60; 900]%Q);
     ("2015-12-31", [63; 65; 62; 64; 61; 1100]%Q)].

(** The same days, later day first, and one day twice. *)
Definition out_of_order : raw_frame Q :=
  Dated yahoo_columns
    [("2015-01-06", [62; 64; 61; 63; 60; 900]%Q);
     ("2015-01-02", [61; 63; 61; 62; 59; 1200]%Q);
     ("2015-01-02", [61; 63; 61; 62; 59; 1200]%Q)].

(** A file without a ["Date"] column, and one dated the 30th of
    February. *)
Definition no_date : raw_frame Q :=
  Undated ["Open"; "Close"] [[61; 62]%Q].

Definition bad_date : raw_frame Q :=
  Dated yahoo_columns [("2015-02-30", [61; 62; 60; 61; 58; 1000]%Q)].

(** The frame of [in_order] between 2015-01-01 and 2015-12-31. *)
Definition ADI_2015 : DataFrame Q :=
  mkDataFrame yahoo_columns
    [(Jan02, [61; 63; 61; 62; 59; 1200]%Q);
     (Jan05, [62; 64; 61; 63; 60; 900]%Q);
     (Dec31, [63; 65; 62; 64; 61; 1100]%Q)].

(** * Properties *)

(** ** The result monad *)

Lemma bind_Ok {X Y} (f : X -> result Y) (x : X) : Ok x ≫= f = f x.
Proof. reflexivity. Qed.

Lemma bind_Raise {X Y} (f : X -> result Y) (e : exn) :
  Raise e ≫= f = Raise e.
Proof. reflexivity. Qed.

(** ** Python sequences *)

Section Sequences.
Context {X : Type}.
Implicit Types (l : list X) (i k : nat) (p : Z).

Lemma len_nonneg l : 0 <= len l.
Proof. unfold len. lia. Qed.

Lemma getitem_lookup l i x :
  l !! i = Some x -> getitem l (Z.of_nat i) = Ok x.
Proof.
  intros Hx. unfold getitem.
  destruct (Z.ltb_spec (Z.of_nat i) 0) as [?|_]; [lia|].
  destruct (Z.ltb_spec (Z.of_nat i) 0) as [?|_]; [lia|].
  by rewrite Nat2Z.id, Hx.
Qed.

Lemma getitem_beyond l p : len l <= p -> getitem l p = Raise IndexError.
Proof.
  intros Hp. pose proof (len_nonneg l). unfold getitem.
  destruct (Z.ltb_spec p 0) as [?|_]; [lia|].
  destruct (Z.ltb_spec p 0) as [?|_]; [lia|].
  rewrite lookup_ge_None_2; [done|]. unfold len in Hp. lia.
Qed.

Lemma slice_from_nonneg l p : 0 <= p -> slice_from l p = drop (Z.to_nat p) l.
Proof.
  intros Hp. unfold slice_from. by destruct (Z.ltb_spec p 0); [lia|].
Qed.

Lemma length_slice_from_neg l p :
  p < 0 -> length (slice_from l p) = Nat.min (length l) (Z.to_nat (- p)).
Proof.
  intros Hp. unfold slice_from, len.
  destruct (Z.ltb_spec p 0); [|lia]. rewrite length_drop. lia.
Qed.

(** Reading [k] consecutive positions from [i] on: the slice
    [l[i : i + k]]. *)
Lemma mapM_getitem_seqZ l k : forall i,
  (i + k <= length l)%nat ->
  mapM (getitem l) (seqZ (Z.of_nat i) (Z.of_nat k)) = Ok (take k (drop i l)).
Proof.
  induction k as [|k IH]; intros i Hik.
  - by rewrite seqZ_nil, take_0.
  - rewrite seqZ_cons by lia.
    destruct (lookup_lt_is_Some_2 l i) as [x Hx]; [lia|].
    replace (Z.succ (Z.of_nat i)) with (Z.of_nat (S i)) by lia.
    replace (Z.pred (Z.of_nat (S k))) with (Z.of_nat k) by lia.
    cbn. rewrite (getitem_lookup _ _ _ Hx). cbn.
    rewrite (IH (S i)) by lia. cbn.
    by rewrite (drop_S _ _ _ Hx).
Qed.

(** A loop that writes [g k] at position [k] of a pre-sized list, for
    [k] from 0 up, and whose turn [k] sees the values written so far,
    ends with the list of all [g k]. *)
Lemma for_loop_fill (body : list X -> Z -> result (list X))
    (g : nat -> X) (l0 : list X) :
  (forall k, (k < length l0)%nat ->
     body ((g <$> seq 0 k) ++ drop k l0) (Z.of_nat k)
     = Ok (<[k := g k]> ((g <$> seq 0 k) ++ drop k l0))) ->
  for_loop body (range 0 (len l0)) l0 = Ok (g <$> seq 0 (length l0)).
Proof.
  intros Hbody.
  assert (Hgen : forall j k, (k + j = length l0)%nat ->
    for_loop body (seqZ (Z.of_nat k) (Z.of_nat j)) ((g <$> seq 0 k) ++ drop k l0)
    = Ok (g <$> seq 0 (length l0))).
  { induction j as [|j IH]; intros k Hk.
    - rewrite seqZ_nil by lia. cbn. replace k with (length l0) by lia.
      by rewrite drop_all, app_nil_r.
    - rewrite seqZ_cons by lia. cbn. rewrite Hbody by lia. cbn.
      replace (Z.succ (Z.of_nat k)) with (Z.of_nat (S k)) by lia.
      replace (Z.pred (Z.of_nat (S j))) with (Z.of_nat j) by lia.
      destruct (lookup_lt_is_Some_2 l0 k) as [x Hx]; [lia|].
      rewrite (drop_S _ _ _ Hx).
      assert (Hlen : length (g <$> seq 0 k) = k)
        by (by rewrite length_fmap, length_seq).
      rewrite insert_app_r_alt by lia. rewrite Hlen, Nat.sub_diag. cbn.
      replace ((g <$> seq 0 k) ++ g k :: drop (S k) l0)
        with ((g <$> seq 0 (S k)) ++ drop (S k) l0).
      + apply IH. lia.
      + rewrite seq_S, fmap_app. cbn. by rewrite <- app_assoc. }
  specialize (Hgen (length l0) 0%nat eq_refl).
  unfold range. rewrite Z.sub_0_r. exact Hgen.
Qed.

End Sequences.


(** ** The sum of a window *)

Section Summation_facts.
Context {A : Type} `{Number A}.
Implicit Types (a l r : list A) (t : summation A) (gs : list (summation A)).

Lemma fold_left_summation l : forall t0,
  exists t, total t = fold_left add l (total t0) /\ terms t = terms t0 ++ l.
Proof.
  induction l as [|x l IH]; intros t0.
  - exists t0. by rewrite app_nil_r.
  - destruct (IH (plus t0 (term x))) as (t & Ht & Hl).
    exists t. split; [done|]. rewrite Hl. cbn. by rewrite <- app_assoc.
Qed.

Lemma concat_terms_term l : concat (terms <$> (term <$> l)) = l.
Proof. induction l as [|x l IH]; [done|]. cbn. by rewrite IH. Qed.

Lemma total_term l : total <$> (term <$> l) = l.
Proof. induction l as [|x l IH]; [done|]. cbn. by rewrite IH. Qed.

Lemma total_zip_with_plus gs : forall l,
  total <$> zip_with plus gs (term <$> l) = zip_with add (total <$> gs) l.
Proof.
  induction gs as [|g gs IH]; intros [|x l]; try done.
  cbn. by rewrite IH.
Qed.

Lemma terms_zip_with_plus gs : forall l,
  length gs = length l ->
  concat (terms <$> zip_with plus gs (term <$> l))
  ≡ₚ concat (terms <$> gs) ++ l.
Proof.
  induction gs as [|g gs IH]; intros [|x l] Hlen; try done.
  cbn. rewrite IH by (cbn in Hlen; lia).
  rewrite <- !app_assoc. apply Permutation_app_head. cbn.
  apply Permutation_middle.
Qed.

(** The eight partial sums hold, between them, the elements dealt to
    them. *)
Lemma accumulate_summation blocks : forall gs a,
  length gs = 8%nat -> (8 * blocks <= length a)%nat ->
  exists gs',
    total <$> gs' = accumulate blocks (total <$> gs) a
    /\ length gs' = 8%nat
    /\ concat (terms <$> gs') ≡ₚ concat (terms <$> gs) ++ take (8 * blocks) a.
Proof.
  induction blocks as [|b IH]; intros gs a Hgs Ha.
  - exists gs. cbn. by rewrite app_nil_r.
  - cbn [accumulate]. rewrite <- total_zip_with_plus.
    assert (Ht : length (take 8 a) = 8%nat) by (rewrite length_take; lia).
    destruct (IH (zip_with plus gs (term <$> take 8 a)) (drop 8 a))
      as (gs' & Hgs' & Hl' & Hperm).
    + rewrite length_zip_with, length_fmap. lia.
    + rewrite length_drop. lia.
    + exists gs'. split; [done|]. split; [done|].
      rewrite Hperm, terms_zip_with_plus by lia.
      rewrite <- app_assoc, take_take_drop.
      by replace (8 + 8 * b)%nat with (8 * S b)%nat by lia.
Qed.

(** The sum of eight elements or more adds each element once. *)
Lemma unrolled_sum_summation a :
  (8 <= length a)%nat ->
  exists t, total t = unrolled_sum a /\ terms t ≡ₚ a.
Proof.
  intros Ha. unfold unrolled_sum. set (n := length a).
  assert (Hdiv : (n = 8 * (n / 8) + n mod 8)%nat) by apply Nat.div_mod_eq.
  assert (Hq : (1 <= n / 8)%nat).
  { pose proof (Nat.mod_upper_bound n 8). unfold n in *. lia. }
  destruct (accumulate_summation (n / 8 - 1) (term <$> take 8 a) (drop 8 a))
    as (gs & Hgs & Hl & Hperm).
  { rewrite length_fmap, length_take. lia. }
  { rewrite length_drop. fold n. lia. }
  rewrite total_term in Hgs. rewrite <- Hgs.
  do 9 (destruct gs as [|? gs]; try done).
  cbn [fmap list_fmap].
  match goal with
  | |- context [fold_left add ?rest (add (add (add (total ?g0) (total ?g1))
                   (add (total ?g2) (total ?g3)))
                 (add (add (total ?g4) (total ?g5))
                   (add (total ?g6) (total ?g7))))] =>
      destruct (fold_left_summation rest
        (plus (plus (plus g0 g1) (plus g2 g3))
              (plus (plus g4 g5) (plus g6 g7)))) as (t & Ht & Hterms)
  end.
  exists t. split; [exact Ht|]. rewrite Hterms.
  match goal with
  | |- terms ?t0 ++ _ ≡ₚ _ =>
      match type of Hperm with
      | concat ?c ≡ₚ _ => assert (Hc : terms t0 = concat c)
      end
  end.
  { cbn. by rewrite app_nil_r, <- !app_assoc. }
  rewrite Hc, Hperm, concat_terms_term, take_take_drop.
  replace (8 + 8 * (n / 8 - 1))%nat with (n - n mod 8)%nat by lia.
  by rewrite take_drop.
Qed.

Lemma pairwise_sum_short fuel a :
  (length a < 8)%nat -> pairwise_sum fuel a = fold_left add a zero.
Proof.
  intros Ha. apply Nat.ltb_lt in Ha.
  by destruct fuel; cbn [pairwise_sum]; rewrite Ha.
Qed.

(** The pairwise sum adds each element once, whatever the fuel, and
    zero besides when it is a sum from left to right. *)
Lemma pairwise_sum_summation fuel : forall a,
  exists t k, total t = pairwise_sum fuel a
    /\ terms t ≡ₚ replicate k zero ++ a.
Proof.
  induction fuel as [|fuel IH]; intros a; cbn [pairwise_sum];
    destruct (Nat.ltb_spec (length a) 8) as [Hshort|Hlong].
  - destruct (fold_left_summation a (term zero)) as (t & Ht & Hterms).
    exists t, 1%nat. split; [done|]. by rewrite Hterms.
  - destruct (unrolled_sum_summation a Hlong) as (t & Ht & Hterms).
    exists t, 0%nat. split; [by destruct (length a <=? 128)%nat|done].
  - destruct (fold_left_summation a (term zero)) as (t & Ht & Hterms).
    exists t, 1%nat. split; [done|]. by rewrite Hterms.
  - destruct (Nat.leb_spec (length a) 128) as [_|_].
    + destruct (unrolled_sum_summation a Hlong) as (t & Ht & Hterms).
      by exists t, 0%nat.
    + set (n2 := (length a / 2 - (length a / 2) mod 8)%nat).
      destruct (IH (take n2 a)) as (t1 & k1 & Ht1 & Hterms1).
      destruct (IH (drop n2 a)) as (t2 & k2 & Ht2 & Hterms2).
      exists (plus t1 t2), (k1 + k2)%nat. split; [cbn; by rewrite Ht1, Ht2|].
      cbn [terms]. rewrite Hterms1, Hterms2, replicate_add.
      rewrite <- (take_drop n2 a) at 3.
      rewrite <- !app_assoc. apply Permutation_app_head.
      rewrite !app_assoc. apply Permutation_app_tail, Permutation_app_comm.
Qed.

(** With fuel for the length of the array, the cuts never run out of
    it: more fuel changes nothing. *)
Lemma pairwise_sum_fuel fuel : forall fuel' a,
  (length a <= fuel)%nat -> (length a <= fuel')%nat ->
  pairwise_sum fuel a = pairwise_sum fuel' a.
Proof.
  induction fuel as [|fuel IH]; intros fuel' a Hf Hf'.
  - rewrite !pairwise_sum_short by lia. done.
  - destruct fuel' as [|fuel']; [rewrite !pairwise_sum_short by lia; done|].
    cbn [pairwise_sum].
    destruct (Nat.ltb_spec (length a) 8) as [|Hlong]; [done|].
    destruct (Nat.leb_spec (length a) 128) as [|Hcut]; [done|].
    set (n2 := (length a / 2 - (length a / 2) mod 8)%nat).
    assert (Hhalf : (length a / 2 <= length a - 65)%nat).
    { pose proof (Nat.div_mod_eq (length a) 2).
      pose proof (Nat.mod_upper_bound (length a) 2). lia. }
    assert (Hn2 : (57 <= n2 < length a)%nat).
    { unfold n2. pose proof (Nat.mod_upper_bound (length a / 2) 8).
      pose proof (Nat.div_mod_eq (length a) 2).
      pose proof (Nat.mod_upper_bound (length a) 2). lia. }
    rewrite (IH fuel' (take n2 a)), (IH fuel' (drop n2 a));
      rewrite ?length_take, ?length_drop; try lia. done.
Qed.

Lemma np_sum_nonempty l :
  l <> [] ->
  np_sum l = add zero (pairwise_sum (length (fillna l)) (fillna l)).
Proof. intros Hl. unfold np_sum. by destruct l. Qed.

(** [np.sum] adds zero and each price once, a missing price as zero. *)
Lemma np_sum_summation l :
  exists t k, total t = np_sum l /\ terms t ≡ₚ replicate k zero ++ fillna l.
Proof.
  unfold np_sum.
  destruct (pairwise_sum_summation (length (fillna l)) (fillna l))
    as (t & k & Ht & Hterms).
  destruct (fillna l) as [|x a]; [by exists (term zero), 1%nat|].
  exists (plus (term zero) t), (S k). split; [cbn; by rewrite Ht|].
  cbn. by rewrite Hterms.
Qed.

(** Fewer than eight prices are added from left to right. *)
Lemma np_sum_short l :
  (0 < length l < 8)%nat ->
  np_sum l = add zero (fold_left add (fillna l) zero).
Proof.
  intros Hl. unfold np_sum.
  assert (Hlen : length (fillna l) = length l)
    by (unfold fillna; by rewrite length_fmap).
  destruct (fillna l) as [|x a] eqn:Ha; [cbn in Hlen; lia|].
  rewrite pairwise_sum_short; [done|lia].
Qed.

End Summation_facts.


(** ** Moving averages *)

Section MovingAverages_facts.
Context {A : Type} `{Number A}.
Implicit Types (s : Series A) (p : Z) (i k : nat).

Lemma length_values s : length (values s) = length (items s).
Proof. unfold values. by rewrite length_fmap. Qed.

Lemma length_index s : length (index s) = length (items s).
Proof. unfold index. by rewrite length_fmap. Qed.

Lemma length_window s p i :
  (i + Z.to_nat p <= length (items s))%nat ->
  length (window s p i) = Z.to_nat p.
Proof.
  intros Hi. unfold window.
  rewrite length_take, length_drop, length_values. lia.
Qed.

(** The window of position [k] is read without an exception: its
    positions are inside the series, or it is empty. *)
Lemma iloc_window s p k :
  (k < Z.to_nat (len (items s) - p))%nat ->
  iloc s (range (Z.of_nat k) (Z.of_nat k + p)) = Ok (window s p k).
Proof.
  intros Hk. unfold iloc, range, window, len in *.
  replace (Z.of_nat k + p - Z.of_nat k) with p by lia.
  destruct (Z.le_gt_cases p 0) as [Hp|Hp].
  - rewrite seqZ_nil by lia. replace (Z.to_nat p) with 0%nat by lia.
    by rewrite take_0.
  - rewrite <- (Z2Nat.id p) at 1 by lia.
    apply mapM_getitem_seqZ. rewrite length_values. lia.
Qed.

Lemma SMA_body_insert s p (SMA : list A) k :
  (k < Z.to_nat (len (items s) - p))%nat ->
  SMA_body s p SMA (Z.of_nat k) = Ok (<[k := SMA_at s p k]> SMA).
Proof.
  intros Hk. unfold SMA_body. rewrite iloc_window by done. cbn.
  by rewrite Nat2Z.id.
Qed.

(** The loop of [get_SMA], for every period of either sign, raises
    nothing and leaves one value per position of the pre-sized list. *)
Lemma SMA_loop s p :
  let SMA := of_int <$> range 0 (len (items s) - p) in
  for_loop (SMA_body s p) (range 0 (len SMA)) SMA
  = Ok (SMA_at s p <$> seq 0 (Z.to_nat (len (items s) - p))).
Proof.
  intros SMA0.
  assert (Hlen : length SMA0 = Z.to_nat (len (items s) - p)).
  { unfold SMA0, range. rewrite length_fmap, length_seqZ. f_equal. lia. }
  rewrite (for_loop_fill _ (SMA_at s p)).
  - by rewrite Hlen.
  - intros k Hk. apply SMA_body_insert. lia.
Qed.

(** The values are then given to [pd.Series] with the dates
    [close_data.index[time_period:]]. *)
Lemma get_SMA_unfold s p :
  get_SMA s p
  = pd_Series (SMA_at s p <$> seq 0 (Z.to_nat (len (items s) - p)))
      (pretty p +:+ "-SMA") (slice_from (index s) p).
Proof. unfold get_SMA. by rewrite SMA_loop, bind_Ok. Qed.

Lemma pd_Series_ok {B} (data : list B) label (dates : list Timestamp) :
  length data = length dates ->
  pd_Series data label dates = Ok (mkSeries label (zip dates data)).
Proof. intros Hl. unfold pd_Series. by rewrite decide_True. Qed.

Lemma pd_Series_mismatch {B} (data : list B) label
    (dates : list Timestamp) :
  length data <> length dates ->
  pd_Series data label dates = Raise ValueError.
Proof. intros Hl. unfold pd_Series. by rewrite decide_False. Qed.

Lemma values_zip {B} label (dates : list Timestamp) (data : list B) :
  length data = length dates ->
  values (mkSeries label (zip dates data)) = data.
Proof. intros Hl. unfold values. cbn. apply snd_zip. lia. Qed.

Lemma index_zip {B} label (dates : list Timestamp) (data : list B) :
  length data = length dates ->
  index (mkSeries label (zip dates data)) = dates.
Proof. intros Hl. unfold index. cbn. apply fst_zip. lia. Qed.

(** For a period that is not negative the lengths agree, and the series
    is built. *)
Lemma get_SMA_nonneg s p :
  0 <= p ->
  get_SMA s p
  = Ok (mkSeries (pretty p +:+ "-SMA")
          (zip (drop (Z.to_nat p) (index s))
               (SMA_at s p <$> seq 0 (Z.to_nat (len (items s) - p))))).
Proof.
  intros Hp. rewrite get_SMA_unfold, slice_from_nonneg by done.
  apply pd_Series_ok.
  rewrite length_fmap, length_seq, length_drop, length_index.
  unfold len. lia.
Qed.

(** The series [get_SMA] returns for a period of 1 or more: its length,
    its dates, and at each position the value the loop wrote there. *)
Lemma get_SMA_entries s p :
  1 <= p ->
  exists r, get_SMA s p = Ok r
    /\ len (items r) = Z.max 0 (len (items s) - p)
    /\ (len (items s) <= p -> items r = [])
    /\ forall i, Z.of_nat i < len (items s) - p ->
         length (window s p i) = Z.to_nat p
         /\ index r !! i = index s !! (Z.to_nat p + i)%nat
         /\ is_Some (index r !! i)
         /\ values r !! i = Some (SMA_at s p i).
Proof.
  intros Hp. eexists. split; [apply get_SMA_nonneg; lia|].
  set (m := Z.to_nat (len (items s) - p)).
  assert (Hlv : length (SMA_at s p <$> seq 0 m) = m)
    by (by rewrite length_fmap, length_seq).
  assert (Hld : length (drop (Z.to_nat p) (index s)) = m).
  { rewrite length_drop, length_index. unfold m, len. lia. }
  split; [|split].
  - cbn. unfold len at 1. rewrite length_zip, Hlv, Hld. unfold m, len in *. lia.
  - intros Hn. pose proof (len_nonneg (items s)).
    cbn. replace m with 0%nat by (unfold m; lia).
    cbn. by rewrite zip_with_nil_r.
  - intros i Hi. rewrite values_zip, index_zip by congruence.
    split; [apply length_window; unfold len in *; lia|].
    split; [by rewrite lookup_drop|]. split.
    + apply lookup_lt_is_Some_2. rewrite Hld. unfold m. lia.
    + by rewrite list_lookup_fmap, lookup_seq_lt by (unfold m; lia).
Qed.

(** The loop of [get_EMA] at turn [i]: the close price is read at
    position [p + i], the previous value at position [i - 1] of the list
    under construction. *)
Lemma EMA_body_insert s p (seed k : A) (l0 : list A) i :
  0 <= p ->
  (Z.to_nat p + i < length (items s))%nat ->
  let g := EMA_at s (Z.to_nat p) seed k in
  EMA_body s p seed k ((g <$> seq 0 i) ++ drop i l0) (Z.of_nat i)
  = Ok (<[i := g i]> ((g <$> seq 0 i) ++ drop i l0)).
Proof.
  intros Hp Hi g. unfold EMA_body.
  destruct (lookup_lt_is_Some_2 (values s) (Z.to_nat p + i)) as [c Hc];
    [by rewrite length_values|].
  replace (p + Z.of_nat i) with (Z.of_nat (Z.to_nat p + i)) by lia.
  rewrite (getitem_lookup _ _ _ Hc). cbn.
  assert (Hclose : close_at s (Z.to_nat p + i) = c)
    by (unfold close_at; by rewrite Hc).
  destruct i as [|i'].
  - cbn. rewrite Nat.add_0_r in Hclose. by rewrite Hclose.
  - destruct (Z.eqb_spec (Z.of_nat (S i')) 0) as [?|_]; [lia|].
    replace (Z.of_nat (S i') - 1) with (Z.of_nat i') by lia.
    rewrite (getitem_lookup _ _ (g i')).
    + cbn. rewrite Nat2Z.id. subst g. cbn [EMA_at]. by rewrite Hclose.
    + rewrite lookup_app_l by (rewrite length_fmap, length_seq; lia).
      rewrite list_lookup_fmap, lookup_seq_lt by lia. done.
Qed.

(** [get_EMA] for a period [0 <= p < n]: the seed is the first value of
    [get_SMA], and the values follow the recurrence. *)
Lemma get_EMA_nonneg s p :
  0 <= p < len (items s) ->
  get_EMA s p
  = Ok (mkSeries (pretty p +:+ "-EMA")
          (zip (drop (Z.to_nat p) (index s))
               (EMA_at s (Z.to_nat p) (SMA_at s p 0) (smoothing p)
                  <$> seq 0 (Z.to_nat (len (items s) - p))))).
Proof.
  intros Hp. unfold get_EMA. rewrite get_SMA_nonneg, bind_Ok by lia.
  set (m := Z.to_nat (len (items s) - p)).
  assert (Hld : length (drop (Z.to_nat p) (index s)) = m).
  { rewrite length_drop, length_index. unfold m, len. lia. }
  rewrite values_zip by (by rewrite length_fmap, length_seq).
  rewrite (getitem_lookup _ 0%nat (SMA_at s p 0)).
  2:{ rewrite list_lookup_fmap, lookup_seq_lt by (unfold m, len in *; lia).
      done. }
  rewrite bind_Ok.
  destruct (Z.eqb_spec (p + 1) 0) as [?|_]; [lia|]. rewrite bind_Ok.
  set (EMA0 := of_int <$> range 0 (len (items s) - p)).
  assert (Hlen : length EMA0 = m).
  { unfold EMA0, range. rewrite length_fmap, length_seqZ. unfold m.
    f_equal. lia. }
  rewrite (for_loop_fill _ (EMA_at s (Z.to_nat p) (SMA_at s p 0) (smoothing p))).
  - rewrite bind_Ok, Hlen, slice_from_nonneg by lia.
    apply pd_Series_ok. by rewrite length_fmap, length_seq.
  - intros i Hi. apply EMA_body_insert; [lia|].
    unfold m, len in *. lia.
Qed.

(** C2.  For a period [p] with [1 <= p < n], [get_EMA] returns a series
    of length [n - p] dated by the source dates from position [p] on;
    with [k = 2 / (p + 1)] and the seed the first value of [get_SMA],
    its first value is [(close[p] - seed) * k + seed] and its value at
    [i >= 1] is [(close[p + i] - EMA[i - 1]) * k + EMA[i - 1]], the close
    prices being those of the source series. *)
Theorem get_EMA_spec s p :
  1 <= p < len (items s) ->
  exists r sma seed,
    get_EMA s p = Ok r
    /\ get_SMA s p = Ok sma /\ values sma !! 0%nat = Some seed
    /\ len (items r) = len (items s) - p
    /\ index r = drop (Z.to_nat p) (index s)
    /\ (exists c, values s !! Z.to_nat p = Some c
          /\ values r !! 0%nat
             = Some (add (mul (sub c seed) (smoothing p)) seed))
    /\ (forall i, (1 <= i)%nat -> Z.of_nat i < len (items s) - p ->
        exists c prev,
          values s !! (Z.to_nat p + i)%nat = Some c
          /\ values r !! (i - 1)%nat = Some prev
          /\ values r !! i
             = Some (add (mul (sub c prev) (smoothing p)) prev)).
Proof.
  intros Hp. set (m := Z.to_nat (len (items s) - p)).
  set (g := EMA_at s (Z.to_nat p) (SMA_at s p 0) (smoothing p)).
  assert (Hld : length (drop (Z.to_nat p) (index s)) = m).
  { rewrite length_drop, length_index. unfold m, len. lia. }
  assert (Hlg : forall f : nat -> A, length (f <$> seq 0 m) = m)
    by (intros f; by rewrite length_fmap, length_seq).
  assert (Hg : forall j, (j < m)%nat -> (g <$> seq 0 m) !! j = Some (g j)).
  { intros j Hj. by rewrite list_lookup_fmap, lookup_seq_lt by lia. }
  assert (Hc : forall j, (j < m)%nat ->
    values s !! (Z.to_nat p + j)%nat = Some (close_at s (Z.to_nat p + j))).
  { intros j Hj. unfold close_at.
    destruct (lookup_lt_is_Some_2 (values s) (Z.to_nat p + j)) as [c ->];
      [|done].
    rewrite length_values. unfold m, len in *. lia. }
  eexists _, _, (SMA_at s p 0).
  split; [apply get_EMA_nonneg; lia|].
  split; [apply get_SMA_nonneg; lia|].
  rewrite !values_zip, index_zip by (rewrite Hlg; congruence).
  split. { rewrite list_lookup_fmap, lookup_seq_lt by (unfold m, len in *; lia). done. }
  split. { cbn. unfold len at 1. rewrite length_zip, Hlg, Hld. unfold m, len in *. lia. }
  split; [done|]. split.
  - exists (close_at s (Z.to_nat p)). split.
    + rewrite <- (Nat.add_0_r (Z.to_nat p)). apply Hc. unfold m, len in *. lia.
    + rewrite Hg by (unfold m, len in *; lia). done.
  - intros i Hi1 Hi. exists (close_at s (Z.to_nat p + i)), (g (i - 1)%nat).
    split; [apply Hc; unfold m; lia|].
    split; [apply Hg; unfold m; lia|].
    rewrite Hg by (unfold m; lia).
    destruct i as [|i']; [lia|]. cbn. by rewrite Nat.sub_0_r.
Qed.

(** C4.  For a period [p >= n], [get_EMA] raises: the empty result of
    [get_SMA] has no first value to seed the recurrence, and the
    [IndexError] of the lookup reaches the caller.  [get_SMA] returns the
    empty series for the same arguments. *)
Theorem get_EMA_short_series s p :
  len (items s) <= p ->
  get_EMA s p = Raise IndexError
  /\ exists r, get_SMA s p = Ok r /\ items r = [].
Proof.
  intros Hn. pose proof (len_nonneg (items s)) as Hn0.
  assert (Hm : Z.to_nat (len (items s) - p) = 0%nat) by lia.
  split.
  - unfold get_EMA. rewrite get_SMA_nonneg by lia. rewrite Hm. cbn.
    by rewrite zip_with_nil_r.
  - eexists. split; [apply get_SMA_nonneg; lia|].
    cbn. rewrite Hm. cbn. by rewrite zip_with_nil_r.
Qed.

Lemma get_SMA_negative s p : p < 0 -> get_SMA s p = Raise ValueError.
Proof.
  intros Hp. rewrite get_SMA_unfold. apply pd_Series_mismatch.
  rewrite length_fmap, length_seq, length_slice_from_neg, length_index by done.
  unfold len. lia.
Qed.

(** C3, as the code has it.  Neither function checks the period.  A
    negative period makes both raise [ValueError], and only when the
    result series is built: the loop of [get_SMA] has by then run over
    all [n - p] positions, and [pd.Series] is given [n - p] values for
    [min n (- p)] dates.  A period of 0 raises nothing in [get_SMA]: the
    result has length [n], the dates of the source and [0 / 0] at every
    position; [get_EMA] likewise returns [n] values unless the series is
    empty. *)
Theorem period_below_one s p :
  (p < 0 ->
     get_SMA s p = Raise ValueError
     /\ get_EMA s p = Raise ValueError
     /\ exists SMA,
          for_loop (SMA_body s p) (range 0 (len (items s) - p))
            (of_int <$> range 0 (len (items s) - p)) = Ok SMA
          /\ len SMA = len (items s) - p
          /\ len (slice_from (index s) p) < len SMA)
  /\ (p = 0 ->
      (exists r, get_SMA s p = Ok r
         /\ index r = index s
         /\ values r = replicate (length (items s)) (div zero (of_int 0)))
      /\ (1 <= len (items s) ->
          exists r, get_EMA s p = Ok r /\ len (items r) = len (items s))).
Proof.
  split.
  - intros Hp. split; [by apply get_SMA_negative|].
    split; [unfold get_EMA; by rewrite get_SMA_negative|].
    pose proof (SMA_loop s p) as Hloop. cbn zeta in Hloop.
    assert (Hl0 : len (of_int <$> range 0 (len (items s) - p))
                  = len (items s) - p).
    { unfold len, range. rewrite length_fmap, length_seqZ. lia. }
    rewrite Hl0 in Hloop. eexists. split; [exact Hloop|].
    unfold len.
    rewrite length_fmap, length_seq, length_slice_from_neg, length_index
      by done.
    unfold len. lia.
  - intros ->. split.
    + eexists. split; [apply get_SMA_nonneg; lia|].
      rewrite Z.sub_0_r. unfold len. rewrite Nat2Z.id. cbn [Z.to_nat drop].
      assert (Hvals : SMA_at s 0 <$> seq 0 (length (items s))
                      = replicate (length (items s)) (div zero (of_int 0))).
      { rewrite (const_fmap _ _ (div zero (of_int 0))).
        - by rewrite length_seq.
        - intros i x _. reflexivity. }
      rewrite Hvals. change (Z.to_nat 0) with 0%nat. rewrite drop_0.
      rewrite values_zip, index_zip
        by (by rewrite length_replicate, length_index).
      done.
    + intros Hn. eexists. split; [apply get_EMA_nonneg; lia|].
      cbn [items]. unfold len at 1.
      rewrite length_zip, length_fmap, length_seq, length_drop, length_index.
      unfold len. lia.
Qed.

End MovingAverages_facts.


(** ** Moving averages in exact arithmetic *)

Section Exact.
Implicit Types (s : Series Q) (l w : list Q) (p : Z).

Lemma np_sum_bounds (lo hi : Q) l : forall acc : Q,
  Forall (fun x => lo <= x /\ x <= hi)%Q l ->
  (acc + lo * inject_Z (len l) <= fold_left Qplus l acc
   /\ fold_left Qplus l acc <= acc + hi * inject_Z (len l))%Q.
Proof.
  induction l as [|x l IH]; intros acc Hall.
  - change (inject_Z (len (@nil Q))) with 0%Q. cbn [fold_left]. split; lra.
  - apply Forall_cons in Hall as [[Hlo Hhi] Hall].
    destruct (IH (acc + x)%Q Hall) as [IHlo IHhi].
    assert (Hlen : (inject_Z (len (x :: l)) == inject_Z (len l) + 1)%Q).
    { unfold len. cbn [length].
      rewrite Nat2Z.inj_succ, <- Z.add_1_r, inject_Z_plus. reflexivity. }
    cbn [fold_left]. rewrite Hlen. split.
    + eapply Qle_trans; [|exact IHlo]. lra.
    + eapply Qle_trans; [exact IHhi|]. lra.
Qed.

Lemma minimum_le l (lo : Q) :
  minimum l = Some lo -> Forall (fun x => lo <= x)%Q l.
Proof.
  destruct l as [|x l]; [done|]. cbn. intros [= <-].
  assert (Hgen : forall l m,
    (fold_left (fun m y => if Qle_bool m y then m else y) l m <= m)%Q
    /\ Forall (fun x =>
         fold_left (fun m y => if Qle_bool m y then m else y) l m <= x)%Q l).
  { clear. induction l as [|y l IH]; intros m; cbn.
    - split; [apply Qle_refl|constructor].
    - destruct (IH (if Qle_bool m y then m else y)) as [Hm Hl].
      destruct (Qle_bool m y) eqn:Hmy.
      + apply Qle_bool_iff in Hmy. split; [done|]. constructor; [|done].
        by eapply Qle_trans.
      + assert (y < m)%Q.
        { apply Qnot_le_lt. intros Hle. apply Qle_bool_iff in Hle. congruence. }
        split; [eapply Qle_trans; [exact Hm|by apply Qlt_le_weak]|].
        by constructor. }
  destruct (Hgen l x) as [Hx Hl]. by constructor.
Qed.

Lemma maximum_ge l (hi : Q) :
  maximum l = Some hi -> Forall (fun x => x <= hi)%Q l.
Proof.
  destruct l as [|x l]; [done|]. cbn. intros [= <-].
  assert (Hgen : forall l m,
    (m <= fold_left (fun m y => if Qle_bool y m then m else y) l m)%Q
    /\ Forall (fun x =>
         x <= fold_left (fun m y => if Qle_bool y m then m else y) l m)%Q l).
  { clear. induction l as [|y l IH]; intros m; cbn.
    - split; [apply Qle_refl|constructor].
    - destruct (IH (if Qle_bool y m then m else y)) as [Hm Hl].
      destruct (Qle_bool y m) eqn:Hmy.
      + apply Qle_bool_iff in Hmy. split; [done|]. constructor; [|done].
        by eapply Qle_trans.
      + assert (m < y)%Q.
        { apply Qnot_le_lt. intros Hle. apply Qle_bool_iff in Hle. congruence. }
        split; [eapply Qle_trans; [by apply Qlt_le_weak|exact Hm]|].
        by constructor. }
  destruct (Hgen l x) as [Hx Hl]. by constructor.
Qed.

(** In exact arithmetic the order and the grouping of a sum do not
    matter, and no price is missing: [np.sum] is the sum. *)
Lemma fillna_exact l : fillna l = l.
Proof. unfold fillna. cbn. apply list_fmap_id. Qed.

Lemma fold_left_Qplus l : forall acc : Q,
  (fold_left Qplus l acc == acc + fold_left Qplus l 0)%Q.
Proof.
  induction l as [|x l IH]; intros acc; cbn [fold_left].
  - ring.
  - rewrite IH, (IH (0 + x)%Q). ring.
Qed.

Lemma total_exact (t : summation Q) :
  (total t == fold_left Qplus (terms t) 0)%Q.
Proof.
  induction t as [x|t1 IH1 t2 IH2]; cbn [total terms add Q_Number].
  - cbn. ring.
  - rewrite fold_left_app, fold_left_Qplus, IH1, IH2. reflexivity.
Qed.

Lemma sum_permutation l l' :
  l ≡ₚ l' -> (fold_left Qplus l 0 == fold_left Qplus l' 0)%Q.
Proof.
  induction 1 as [|x l l' _ IH|x y l|l l' l'' _ IH1 _ IH2]; cbn [fold_left].
  - reflexivity.
  - rewrite fold_left_Qplus, (fold_left_Qplus l'), IH. reflexivity.
  - rewrite fold_left_Qplus, (fold_left_Qplus l (0 + x + y)%Q). ring.
  - by rewrite IH1.
Qed.

Lemma sum_replicate_zero k l :
  (fold_left Qplus (replicate k 0%Q ++ l) 0 == fold_left Qplus l 0)%Q.
Proof.
  induction k as [|k IH]; cbn [replicate app fold_left]; [reflexivity|].
  rewrite fold_left_Qplus, IH. ring.
Qed.

Lemma np_sum_exact l : (np_sum l == fold_left Qplus l 0)%Q.
Proof.
  destruct (np_sum_summation l) as (t & k & <- & Hterms).
  rewrite total_exact, (sum_permutation _ _ Hterms), fillna_exact.
  apply sum_replicate_zero.
Qed.

(** The value the loop writes is the arithmetic mean of the window. *)
Lemma SMA_at_exact s p i :
  0 <= p -> length (window s p i) = Z.to_nat p ->
  (SMA_at s p i == arithmetic_mean (window s p i))%Q.
Proof.
  intros Hp Hw. unfold SMA_at, arithmetic_mean, len.
  rewrite Hw, Z2Nat.id by done. cbn [div add zero Q_Number].
  by rewrite np_sum_exact.
Qed.

Lemma bounded_by_Qeq w (v v' : Q) :
  (v == v')%Q -> bounded_by w v = bounded_by w v'.
Proof.
  intros Hv. unfold bounded_by.
  destruct (minimum w) as [lo|], (maximum w) as [hi|]; try done.
  cbn [leb Q_Number]. apply eq_iff_eq_true.
  by rewrite !andb_true_iff, !Qle_bool_iff, Hv.
Qed.

(** The mean of a list that is not empty lies between its least and its
    greatest element. *)
Lemma arithmetic_mean_bounded w :
  w <> [] -> bounded_by w (arithmetic_mean w) = true.
Proof.
  intros Hne. unfold bounded_by.
  destruct (minimum w) as [lo|] eqn:Hmin; [|by destruct w].
  destruct (maximum w) as [hi|] eqn:Hmax; [|by destruct w].
  pose proof (minimum_le _ _ Hmin) as Hlo.
  pose proof (maximum_ge _ _ Hmax) as Hhi.
  assert (Hall : Forall (fun x => lo <= x /\ x <= hi)%Q w).
  { rewrite Forall_forall in *. intros x Hx. split; auto. }
  destruct (np_sum_bounds lo hi w 0%Q Hall) as [Hs1 Hs2].
  assert (Hpos : (0 < inject_Z (len w))%Q).
  { change 0%Q with (inject_Z 0). rewrite <- Zlt_Qlt. unfold len.
    destruct w; [done|]. cbn [length]. lia. }
  cbn [leb Q_Number]. apply andb_true_iff.
  unfold arithmetic_mean. cbn [div add zero of_int Q_Number].
  split; apply Qle_bool_iff.
  - apply Qle_shift_div_l; [done|]. eapply Qle_trans; [|exact Hs1]. lra.
  - apply Qle_shift_div_r; [done|]. eapply Qle_trans; [exact Hs2|]. lra.
Qed.

(** C10, in exact arithmetic.  For a period [p] with [1 <= p < n],
    every value of the series [get_SMA] returns lies between the least
    and the greatest of the [p] close prices of its window, when the
    prices are rationals and nothing is rounded. *)
Theorem get_SMA_within_window s p :
  1 <= p < len (items s) ->
  exists r, get_SMA s p = Ok r
    /\ forall i v, values r !! i = Some v ->
         bounded_by (window s p i) v = true.
Proof.
  intros Hp. eexists. split; [apply get_SMA_nonneg; lia|].
  set (m := Z.to_nat (len (items s) - p)).
  intros i v. rewrite values_zip.
  2:{ rewrite length_fmap, length_seq, length_drop, length_index.
      unfold m, len. lia. }
  intros Hv. apply list_lookup_fmap_Some in Hv as (k & -> & Hk).
  apply lookup_seq in Hk as [-> Hi]. cbn [Nat.add].
  assert (Hw : length (window s p i) = Z.to_nat p).
  { apply length_window. unfold m, len in *. lia. }
  rewrite (bounded_by_Qeq _ _ _ (SMA_at_exact s p i ltac:(lia) Hw)).
  apply arithmetic_mean_bounded. intros Hnil. rewrite Hnil in Hw.
  cbn in Hw. lia.
Qed.

End Exact.


(** ** Moving averages of whole numbers *)

Section Whole_numbers.
Implicit Types (zs : list Z) (t : summation np_number) (l : list np_number).

Lemma wrap_int64_add a b :
  wrap_int64 (wrap_int64 a + wrap_int64 b) = wrap_int64 (a + b).
Proof. unfold wrap_int64. Z.div_mod_to_equations. lia. Qed.

Lemma wrap_int64_idemp a : wrap_int64 (wrap_int64 a) = wrap_int64 a.
Proof. unfold wrap_int64. Z.div_mod_to_equations. lia. Qed.

Lemma fillna_int64 zs : fillna (np_int64 <$> zs) = np_int64 <$> zs.
Proof. unfold fillna. by rewrite <- list_fmap_compose. Qed.

Lemma foldr_add_app (xs ys : list Z) :
  foldr Z.add 0 (xs ++ ys) = foldr Z.add 0 xs + foldr Z.add 0 ys.
Proof. induction xs as [|x xs IH]; cbn; lia. Qed.

Lemma foldr_add_permutation l l' :
  l ≡ₚ l' ->
  foldr Z.add 0 (int64_value <$> l) = foldr Z.add 0 (int64_value <$> l').
Proof. induction 1; cbn in *; lia. Qed.

(** A sum of [int64] numbers is the [int64] that holds the sum of the
    whole numbers, up to the wrap, however it is grouped. *)
Lemma total_int64 t :
  Forall (fun x => exists z, x = np_int64 z) (terms t) ->
  exists z, total t = np_int64 z
    /\ wrap_int64 z = wrap_int64 (foldr Z.add 0 (int64_value <$> terms t)).
Proof.
  induction t as [x|t1 IH1 t2 IH2]; cbn [terms total]; intros Hall.
  - apply Forall_singleton in Hall as [z ->]. exists z. split; [done|].
    cbn. by rewrite Z.add_0_r.
  - apply Forall_app in Hall as [Hall1 Hall2].
    destruct (IH1 Hall1) as (z1 & -> & Hz1), (IH2 Hall2) as (z2 & -> & Hz2).
    exists (wrap_int64 (z1 + z2)). split; [done|].
    rewrite fmap_app, foldr_add_app, wrap_int64_idemp.
    by rewrite <- wrap_int64_add, Hz1, Hz2, wrap_int64_add.
Qed.

Lemma np_sum_int64 zs :
  np_sum (np_int64 <$> zs) = np_int64 (wrap_int64 (foldr Z.add 0 zs)).
Proof.
  destruct zs as [|z zs]; [done|].
  rewrite np_sum_nonempty, fillna_int64 by done.
  set (l := np_int64 <$> z :: zs).
  destruct (pairwise_sum_summation (length l) l) as (t & k & Ht & Hterms).
  destruct (total_int64 t) as (z' & Hz' & Hwrap).
  { rewrite Hterms. apply Forall_app. split.
    - apply Forall_replicate. by exists 0.
    - apply Forall_forall. intros x Hx.
      apply list_elem_of_fmap in Hx as (z0 & -> & _). by exists z0. }
  rewrite <- Ht, Hz'. cbn [add zero np_number_Number np_binary]. f_equal.
  rewrite Z.add_0_l, Hwrap, (foldr_add_permutation _ _ Hterms).
  rewrite fmap_app, foldr_add_app. f_equal.
  assert (Hzero : foldr Z.add 0 (int64_value <$> replicate k zero) = 0).
  { clear. induction k as [|k IH]; [done|]. cbn in *. by rewrite IH. }
  assert (Hl : int64_value <$> l = z :: zs).
  { unfold l. rewrite <- list_fmap_compose. apply list_fmap_id. }
  by rewrite Hzero, Hl.
Qed.

End Whole_numbers.




(** ** Exceptions inside [mapM] *)

Section MapM.
Context {X Y : Type} (f : X -> result Y).

Lemma mapM_Ok_Forall2 (l : list X) : forall ys,
  mapM f l = Ok ys <-> Forall2 (fun x y => f x = Ok y) l ys.
Proof.
  induction l as [|x l IH]; intros ys; cbn.
  - split.
    + intros [= <-]. constructor.
    + intros Hf. by apply Forall2_nil_inv_l in Hf as ->.
  - destruct (f x) as [y|e] eqn:Hx; cbn.
    + destruct (mapM f l) as [ys'|e'] eqn:Hl; cbn.
      * split.
        -- intros [= <-]. constructor; [done|]. by apply IH.
        -- intros Hf. apply Forall2_cons_inv_l in Hf as (y' & ys'' & Hy & Hys & ->).
           apply IH in Hys. unfold mret, result_ret. congruence.
      * split; [done|]. intros Hf.
        apply Forall2_cons_inv_l in Hf as (y' & ys'' & Hy & Hys & ->).
        apply IH in Hys. congruence.
    + split; [done|]. intros Hf.
      apply Forall2_cons_inv_l in Hf as (y' & ys'' & Hy & Hys & ->).
      congruence.
Qed.

Lemma mapM_is_Ok (l : list X) :
  Forall (fun x => is_Ok (f x) = true) l <-> is_Ok (mapM f l) = true.
Proof.
  induction l as [|x l IH]; cbn.
  - split; [done|constructor].
  - rewrite Forall_cons, IH.
    destruct (f x) as [y|e]; cbn; [|intuition congruence].
    destruct (mapM f l) as [ys|e]; cbn; intuition congruence.
Qed.

End MapM.


(** ** The order of Python strings *)

Lemma string_compare_refl (s : string) : String.compare s s = Eq.
Proof.
  pose proof (String.compare_antisym s s) as Ha.
  by destruct (String.compare s s).
Qed.

Lemma ltb_irrefl (s : string) : String.ltb s s = false.
Proof. unfold String.ltb. by rewrite string_compare_refl. Qed.

Lemma leb_refl (s : string) : String.leb s s = true.
Proof. unfold String.leb. by rewrite string_compare_refl. Qed.

Lemma ltb_leb_ne (s t : string) :
  String.ltb s t = true <-> String.leb s t = true /\ s <> t.
Proof.
  unfold String.ltb, String.leb.
  destruct (String.compare s t) eqn:Hc.
  - apply String.compare_eq_iff in Hc. intuition congruence.
  - split; [|done]. intros _. split; [done|]. intros ->.
    by rewrite string_compare_refl in Hc.
  - intuition congruence.
Qed.

(** ** Timestamps in order *)

Lemma Timestamp_lt_spec (a b : Timestamp) :
  Timestamp_lt a b
  <-> year a < year b
      \/ (year a = year b
          /\ (month a < month b \/ (month a = month b /\ day a < day b))).
Proof.
  unfold Timestamp_lt, Timestamp_ltb.
  repeat (rewrite orb_True || rewrite andb_True).
  rewrite !Is_true_true, !Z.ltb_lt, !Z.eqb_eq. done.
Qed.

#[global] Instance Timestamp_lt_trans : Transitive Timestamp_lt.
Proof. intros a b c. rewrite !Timestamp_lt_spec. lia. Qed.

Lemma Forall_sublist {X} (P : X -> Prop) (k l : list X) :
  k `sublist_of` l -> Forall P l -> Forall P k.
Proof.
  induction 1 as [|x k l Hsub IH|x k l Hsub IH]; intros Hl.
  - constructor.
  - apply Forall_cons in Hl as [Hx Hl]. constructor; auto.
  - apply Forall_cons in Hl as [_ Hl]. auto.
Qed.

Lemma StronglySorted_sublist {X} (R : relation X) (k l : list X) :
  k `sublist_of` l -> StronglySorted R l -> StronglySorted R k.
Proof.
  induction 1 as [|x k l Hsub IH|x k l Hsub IH]; intros Hl.
  - constructor.
  - apply StronglySorted_cons in Hl as [Hx Hl].
    apply StronglySorted_cons. split; [|auto].
    by eapply Forall_sublist.
  - apply StronglySorted_cons in Hl as [_ Hl]. auto.
Qed.

(** ** Date strings of the form [YYYY-MM-DD] *)

Lemma digit_bounds (c : ascii) (v : Z) : digit c = Some v -> 0 <= v <= 9.
Proof.
  unfold digit. intros Hd.
  destruct (Z.leb_spec 48 (Z.of_N (N_of_ascii c))),
    (Z.leb_spec (Z.of_N (N_of_ascii c)) 57); cbn in Hd; [|done..].
  injection Hd as <-. lia.
Qed.

(** Two digits compare as characters the way their values compare. *)
Lemma digit_compare (c c' : ascii) (v v' : Z) :
  digit c = Some v -> digit c' = Some v' -> Ascii.compare c c' = (v ?= v').
Proof.
  unfold digit, Ascii.compare. intros Hd Hd'.
  destruct ((48 <=? Z.of_N (N_of_ascii c)) && (Z.of_N (N_of_ascii c) <=? 57));
    [|done].
  destruct ((48 <=? Z.of_N (N_of_ascii c')) && (Z.of_N (N_of_ascii c') <=? 57));
    [|done].
  injection Hd as <-. injection Hd' as <-.
  rewrite <- N2Z.inj_compare.
  destruct (Z.compare_spec (Z.of_N (N_of_ascii c)) (Z.of_N (N_of_ascii c')));
    symmetry; [apply Z.compare_eq_iff|apply Z.compare_lt_iff
              |apply Z.compare_gt_iff]; lia.
Qed.

(** The shape of a string that [iso_Timestamp] accepts, and the fields
    of the timestamp it gives. *)
Lemma iso_Timestamp_inv (s : string) (a : Timestamp) :
  iso_Timestamp s = Ok a ->
  exists c1 c2 c3 c4 c5 c6 c7 c8 v1 v2 v3 v4 v5 v6 v7 v8,
    s = String c1 (String c2 (String c3 (String c4 (String "-"
          (String c5 (String c6 (String "-"
             (String c7 (String c8 EmptyString)))))))))
    /\ digit c1 = Some v1 /\ digit c2 = Some v2 /\ digit c3 = Some v3
    /\ digit c4 = Some v4 /\ digit c5 = Some v5 /\ digit c6 = Some v6
    /\ digit c7 = Some v7 /\ digit c8 = Some v8
    /\ year a = 1000 * v1 + 100 * v2 + 10 * v3 + v4
    /\ month a = 10 * v5 + v6
    /\ day a = 10 * v7 + v8.
Proof.
  unfold iso_Timestamp. intros Hs.
  rewrite <- (String.string_of_list_ascii_of_string s).
  destruct (String.list_ascii_of_string s)
    as [|c1 [|c2 [|c3 [|c4 [|h1 [|c5 [|c6 [|h2 [|c7 [|c8 [|? ?]]]]]]]]]]];
    try discriminate Hs.
  destruct (Ascii.eqb_spec h1 "-") as [->|]; [|discriminate Hs].
  destruct (Ascii.eqb_spec h2 "-") as [->|]; [|discriminate Hs].
  cbn [andb number] in Hs.
  destruct (digit c1) as [v1|] eqn:H1; [|discriminate Hs].
  destruct (digit c2) as [v2|] eqn:H2; [|discriminate Hs].
  destruct (digit c3) as [v3|] eqn:H3; [|discriminate Hs].
  destruct (digit c4) as [v4|] eqn:H4; [|discriminate Hs].
  destruct (digit c5) as [v5|] eqn:H5; [|discriminate Hs].
  destruct (digit c6) as [v6|] eqn:H6; [|discriminate Hs].
  destruct (digit c7) as [v7|] eqn:H7; [|discriminate Hs].
  destruct (digit c8) as [v8|] eqn:H8; [|discriminate Hs].
  cbn [mbind option_bind] in Hs.
  destruct (in_bounds _ _ _); [|discriminate Hs].
  unfold make_Timestamp in Hs.
  destruct (decide _) as [ok|]; [|discriminate Hs].
  injection Hs as <-.
  exists c1, c2, c3, c4, c5, c6, c7, c8, v1, v2, v3, v4, v5, v6, v7, v8.
  cbn [year month day String.string_of_list_ascii].
  repeat split; try done; lia.
Qed.

(** On such strings the order of Python strings is the order of the
    dates. *)
Lemma iso_Timestamp_ltb (s t : string) (a b : Timestamp) :
  iso_Timestamp s = Ok a -> iso_Timestamp t = Ok b ->
  String.ltb s t = true <-> Timestamp_lt a b.
Proof.
  intros Hs Ht.
  apply iso_Timestamp_inv in Hs
    as (c1 & c2 & c3 & c4 & c5 & c6 & c7 & c8
        & v1 & v2 & v3 & v4 & v5 & v6 & v7 & v8
        & -> & H1 & H2 & H3 & H4 & H5 & H6 & H7 & H8 & Hy & Hm & Hd).
  apply iso_Timestamp_inv in Ht
    as (c1' & c2' & c3' & c4' & c5' & c6' & c7' & c8'
        & w1 & w2 & w3 & w4 & w5 & w6 & w7 & w8
        & -> & G1 & G2 & G3 & G4 & G5 & G6 & G7 & G8 & Hy' & Hm' & Hd').
  rewrite Timestamp_lt_spec, Hy, Hm, Hd, Hy', Hm', Hd'.
  unfold String.ltb. cbn [String.compare].
  rewrite (digit_compare _ _ _ _ H1 G1), (digit_compare _ _ _ _ H2 G2),
    (digit_compare _ _ _ _ H3 G3), (digit_compare _ _ _ _ H4 G4),
    (digit_compare _ _ _ _ H5 G5), (digit_compare _ _ _ _ H6 G6),
    (digit_compare _ _ _ _ H7 G7), (digit_compare _ _ _ _ H8 G8).
  change (Ascii.compare "-" "-") with Eq. cbv iota.
  apply digit_bounds in H1, H2, H3, H4, H5, H6, H7, H8,
    G1, G2, G3, G4, G5, G6, G7, G8.
  destruct (Z.compare_spec v1 w1); [|split; [lia|done]|split; [done|lia]].
  destruct (Z.compare_spec v2 w2); [|split; [lia|done]|split; [done|lia]].
  destruct (Z.compare_spec v3 w3); [|split; [lia|done]|split; [done|lia]].
  destruct (Z.compare_spec v4 w4); [|split; [lia|done]|split; [done|lia]].
  destruct (Z.compare_spec v5 w5); [|split; [lia|done]|split; [done|lia]].
  destruct (Z.compare_spec v6 w6); [|split; [lia|done]|split; [done|lia]].
  destruct (Z.compare_spec v7 w7); [|split; [lia|done]|split; [done|lia]].
  destruct (Z.compare_spec v8 w8); [|split; [lia|done]|split; [done|lia]].
  split; [done|lia].
Qed.

Lemma leb_negb_ltb (s t : string) : String.leb s t = negb (String.ltb t s).
Proof.
  unfold String.leb, String.ltb. rewrite (String.compare_antisym t s).
  by destruct (String.compare s t).
Qed.

(** On such strings [mask] selects the dates after [start_date] and not
    after [end_date]. *)
Lemma mask_iso {C} (start_date end_date : string) (row : string * list C)
    (s e d : Timestamp) :
  iso_Timestamp start_date = Ok s -> iso_Timestamp end_date = Ok e ->
  iso_Timestamp row.1 = Ok d ->
  mask start_date end_date row = true
  <-> Timestamp_lt s d /\ ~ Timestamp_lt e d.
Proof.
  intros Hs He Hd. unfold mask.
  rewrite andb_true_iff, leb_negb_ltb, negb_true_iff.
  rewrite <- (iso_Timestamp_ltb _ _ _ _ Hs Hd).
  rewrite <- (iso_Timestamp_ltb _ _ _ _ He Hd).
  destruct (String.ltb end_date row.1); intuition congruence.
Qed.

(** ** Ingestion *)

Section Ingestion_facts.
Context {C : Type}.
Variable pd_Timestamp : string -> result Timestamp.
Implicit Types (body : list (string * list C)) (cols : list string).
Implicit Types (start_date end_date : string).

Lemma mask_spec start_date end_date (row : string * list C) :
  mask start_date end_date row = true
  <-> String.ltb start_date row.1 = true /\ String.leb row.1 end_date = true.
Proof. unfold mask. apply andb_true_iff. Qed.

(** One file with a ["Date"] column: the frame is built exactly when
    the dates of the kept rows parse. *)
Lemma read_frame_Dated start_date end_date cols body :
  read_frame pd_Timestamp start_date end_date (Ok (Dated cols body))
  = dates ← mapM pd_Timestamp (List.filter (mask start_date end_date) body).*1;
    Ok (mkDataFrame cols
          (zip dates (List.filter (mask start_date end_date) body).*2)).
Proof. reflexivity. Qed.

Lemma Forall2_zip_rows (kept : list (string * list C)) (dates : list Timestamp) :
  Forall2 (fun d ts => pd_Timestamp d = Ok ts) kept.*1 dates ->
  Forall2 (fun (row : string * list C) (r : Timestamp * list C) =>
             pd_Timestamp row.1 = Ok r.1 /\ row.2 = r.2)
    kept (zip dates kept.*2).
Proof.
  revert dates. induction kept as [|row kept IH]; intros dates Hf; cbn in *.
  - apply Forall2_nil_inv_l in Hf as ->. constructor.
  - apply Forall2_cons_inv_l in Hf as (ts & dates' & Hts & Hf & ->).
    cbn. constructor; [done|]. by apply IH.
Qed.

Lemma filter_boundary_count start_date end_date body :
  Forall (fun row : string * list C =>
            String.leb start_date row.1 = true
            /\ String.leb row.1 end_date = true) body ->
  length (List.filter (mask start_date end_date) body)
  = (length body
     - length (List.filter
                 (fun row : string * list C => String.eqb row.1 start_date)
                 body))%nat.
Proof.
  induction 1 as [|row body [Hlo Hhi] Hall IH]; [done|]. cbn.
  pose proof (filter_length_le
    (fun row : string * list C => String.eqb row.1 start_date) body) as Hle.
  unfold mask at 1. rewrite Hhi, andb_true_r.
  destruct (String.eqb_spec row.1 start_date) as [->|Hne].
  - rewrite ltb_irrefl. cbn. lia.
  - rewrite (proj2 (ltb_leb_ne start_date row.1)) by (split; congruence).
    cbn. lia.
Qed.

(** C5.  The rows of a file that are kept are exactly those whose date
    [d] satisfies [start_date < d <= end_date]: a row dated [start_date]
    is dropped, a row dated [end_date] is kept.  The dates are compared
    as strings, which on dates written [YYYY-MM-DD] is the order of the
    calendar.  When the dates of the kept rows parse, the frame is
    built from the kept rows, in their order, and stored under the key
    of the file.  When the interval spans every date of the file, the
    number of kept rows is the number of rows less the number of rows
    dated [start_date]. *)
Theorem read_frame_interval start_date end_date file_name cols body :
  let kept := List.filter (mask start_date end_date) body in
  (forall row, In row kept <->
     In row body /\ String.ltb start_date row.1 = true
                 /\ String.leb row.1 end_date = true)
  /\ (forall cells : list C,
        mask start_date end_date (start_date, cells) = false)
  /\ (forall cells : list C, String.ltb start_date end_date = true ->
        mask start_date end_date (end_date, cells) = true)
  /\ (forall (row : string * list C) s e d,
        iso_Timestamp start_date = Ok s -> iso_Timestamp end_date = Ok e ->
        iso_Timestamp row.1 = Ok d ->
        mask start_date end_date row = true
        <-> Timestamp_lt s d /\ ~ Timestamp_lt e d)
  /\ (Forall (fun row => is_Ok (pd_Timestamp row.1) = true) kept ->
      exists df,
        read_frame pd_Timestamp start_date end_date (Ok (Dated cols body))
        = Ok df
        /\ get_data pd_Timestamp [(file_name, Ok (Dated cols body))]
             start_date end_date = Ok {[ key_of file_name := df ]}
        /\ columns df = cols
        /\ length (rows df) = length kept
        /\ Forall2 (fun row r => pd_Timestamp row.1 = Ok r.1 /\ row.2 = r.2)
             kept (rows df))
  /\ (Forall (fun row => String.leb start_date row.1 = true
                         /\ String.leb row.1 end_date = true) body ->
      length kept
      = (length body
         - length (List.filter
                     (fun row : string * list C => String.eqb row.1 start_date)
                     body))%nat).
Proof.
  intros kept. split; [|split; [|split; [|split; [|split]]]].
  - intros row. unfold kept. rewrite filter_In, mask_spec. done.
  - intros cells. unfold mask. cbn. by rewrite ltb_irrefl.
  - intros cells Hlt. unfold mask. cbn. by rewrite Hlt, leb_refl.
  - intros row s e d. apply mask_iso.
  - intros Hparse.
    assert (Hok : is_Ok (mapM pd_Timestamp kept.*1) = true).
    { apply mapM_is_Ok. by apply Forall_fmap. }
    destruct (mapM pd_Timestamp kept.*1) as [dates|e] eqn:Hdates; [|done].
    exists (mkDataFrame cols (zip dates kept.*2)).
    assert (Hread : read_frame pd_Timestamp start_date end_date
                      (Ok (Dated cols body))
                    = Ok (mkDataFrame cols (zip dates kept.*2))).
    { rewrite read_frame_Dated. fold kept. by rewrite Hdates. }
    apply mapM_Ok_Forall2 in Hdates.
    pose proof (Forall2_zip_rows _ _ Hdates) as Hrows.
    split; [done|]. split.
    { unfold get_data, get_data_body. cbn [for_loop snd fst].
      rewrite Hread. reflexivity. }
    split; [done|]. split; [|done].
    symmetry. by eapply Forall2_length.
  - apply filter_boundary_count.
Qed.

Lemma get_data_loop_cons start_date end_date file_name file (dir : directory)
    (data0 : gmap string (DataFrame C)) :
  for_loop (get_data_body pd_Timestamp start_date end_date)
    ((file_name, file) :: dir) data0
  = match read_frame pd_Timestamp start_date end_date file with
    | Ok df =>
        for_loop (get_data_body pd_Timestamp start_date end_date) dir
          (<[key_of file_name := df]> data0)
    | Raise e => Raise e
    end.
Proof.
  cbn [for_loop]. unfold get_data_body. cbn [fst snd].
  by destruct (read_frame pd_Timestamp start_date end_date file).
Qed.

(** The loop of [get_data] from any dictionary: it ends with every
    file stored when every file is read, and it raises as soon as one
    file does. *)
Lemma get_data_loop start_date end_date (dir : directory) :
  forall data0 : gmap string (DataFrame C),
  (Forall (fun entry =>
      is_Ok (read_frame pd_Timestamp start_date end_date entry.2) = true) dir ->
   exists data,
     for_loop (get_data_body pd_Timestamp start_date end_date) dir data0
     = Ok data
     /\ (forall entry, entry ∈ dir -> is_Some (data !! key_of entry.1))
     /\ (forall k, is_Some (data0 !! k) -> is_Some (data !! k)))
  /\ (forall entry e, entry ∈ dir ->
      read_frame pd_Timestamp start_date end_date entry.2 = Raise e ->
      exists e',
        for_loop (get_data_body pd_Timestamp start_date end_date) dir data0
        = Raise e').
Proof.
  induction dir as [|[file_name file] dir IH]; intros data0.
  - split.
    + intros _. exists data0. split; [done|]. split; [|done].
      intros entry Hin. by apply elem_of_nil in Hin.
    + intros entry e Hin. by apply elem_of_nil in Hin.
  - rewrite get_data_loop_cons.
    destruct (read_frame pd_Timestamp start_date end_date file)
      as [df|e0] eqn:Hfile.
    + destruct (IH (<[key_of file_name := df]> data0)) as [IHok IHfail].
      split.
      * intros Hall. apply Forall_cons in Hall as [_ Hall].
        destruct (IHok Hall) as (data & Hloop & Hdir & Hkeep).
        exists data. split; [done|]. split.
        -- intros entry Hin. apply elem_of_cons in Hin as [->|Hin]; [|auto].
           apply Hkeep. cbn. rewrite lookup_insert_eq. by eexists.
        -- intros k Hk. apply Hkeep.
           destruct (decide (key_of file_name = k)) as [->|Hne].
           ++ rewrite lookup_insert_eq. by eexists.
           ++ by rewrite lookup_insert_ne.
      * intros entry e Hin Hraise.
        apply elem_of_cons in Hin as [->|Hin]; [cbn [snd] in Hraise; congruence|].
        by eapply IHfail.
    + split.
      * intros Hall. apply Forall_cons in Hall as [Hok _]. cbn [snd] in Hok.
        by rewrite Hfile in Hok.
      * intros. by eexists.
Qed.

(** C6, as the code has it.  The loop of [get_data] catches nothing: an
    exception in one file ([pd.read_csv] raising, no ["Date"] column, a
    kept date that does not parse) ends the whole call, and no mapping
    is returned.  When every file is read, the mapping holds a frame
    under the key of every file. *)
Theorem get_data_aborts_on_failure start_date end_date
    (dir : list (string * result (raw_frame C))) :
  (forall (entry : string * result (raw_frame C)) e, entry ∈ dir ->
     read_frame pd_Timestamp start_date end_date entry.2 = Raise e ->
     exists e', get_data pd_Timestamp dir start_date end_date = Raise e')
  /\ (Forall (fun entry =>
        is_Ok (read_frame pd_Timestamp start_date end_date entry.2) = true)
        dir ->
      exists data,
        get_data pd_Timestamp dir start_date end_date = Ok data
        /\ forall entry, entry ∈ dir -> is_Some (data !! key_of entry.1)).
Proof.
  destruct (get_data_loop start_date end_date dir ∅) as [Hok Hfail].
  split; [exact Hfail|].
  intros Hall. destruct (Hok Hall) as (data & Hloop & Hdir & _).
  by exists data.
Qed.

Lemma filter_parse_sublist start_date end_date body (tss : list Timestamp) :
  Forall2 (fun (row : string * list C) ts => pd_Timestamp row.1 = Ok ts)
    body tss ->
  exists tss',
    Forall2 (fun (row : string * list C) ts => pd_Timestamp row.1 = Ok ts)
      (List.filter (mask start_date end_date) body) tss'
    /\ tss' `sublist_of` tss.
Proof.
  induction 1 as [|row ts body tss Hrow Hall (tss' & IH1 & IH2)].
  - exists []. split; constructor.
  - cbn. destruct (mask start_date end_date row).
    + exists (ts :: tss'). split; [by constructor|by apply sublist_skip].
    + exists tss'. split; [done|by apply sublist_cons].
Qed.

(** C7, as the code has it.  [get_data] neither sorts nor removes
    duplicates: the dates of the frame are those of the kept rows, in
    the order of the file.  When the dates of the file increase
    strictly, so do the dates of the frame. *)
Theorem read_frame_keeps_order start_date end_date cols body
    (tss : list Timestamp) :
  mapM pd_Timestamp body.*1 = Ok tss ->
  exists df,
    read_frame pd_Timestamp start_date end_date (Ok (Dated cols body)) = Ok df
    /\ (rows df).*1 `sublist_of` tss
    /\ (rows df).*2 = (List.filter (mask start_date end_date) body).*2
    /\ (Sorted Timestamp_lt tss -> Sorted Timestamp_lt (rows df).*1).
Proof.
  intros Hparse. apply mapM_Ok_Forall2 in Hparse.
  apply Forall2_fmap_l in Hparse.
  destruct (filter_parse_sublist start_date end_date _ _ Hparse)
    as (tss' & Hkept & Hsub).
  set (kept := List.filter (mask start_date end_date) body) in *.
  assert (Hlen : length kept = length tss') by (by eapply Forall2_length).
  assert (Hdates : mapM pd_Timestamp kept.*1 = Ok tss').
  { apply mapM_Ok_Forall2. by apply Forall2_fmap_l. }
  exists (mkDataFrame cols (zip tss' kept.*2)).
  split. { rewrite read_frame_Dated. fold kept. by rewrite Hdates. }
  cbn [rows].
  rewrite fst_zip, snd_zip by (rewrite length_fmap; lia).
  split; [done|]. split; [done|].
  intros Hsorted. apply StronglySorted_Sorted.
  eapply StronglySorted_sublist; [done|].
  apply Sorted_StronglySorted; [|done].
  intros a b c. apply Timestamp_lt_trans.
Qed.

End Ingestion_facts.


(** ** The calendar *)

Lemma valid_date_spec (y m d : Z) :
  Is_true (valid_date y m d)
  <-> 1 <= y <= 9999 /\ 1 <= m <= 12 /\ 1 <= d <= days_in_month y m.
Proof.
  unfold valid_date. rewrite !andb_True, !Is_true_true, !Z.leb_le. lia.
Qed.

Lemma month_cases (m : Z) :
  1 <= m <= 12 ->
  m = 1 \/ m = 2 \/ m = 3 \/ m = 4 \/ m = 5 \/ m = 6 \/ m = 7 \/ m = 8
  \/ m = 9 \/ m = 10 \/ m = 11 \/ m = 12.
Proof. lia. Qed.

Ltac each_month m H :=
  destruct (month_cases m H) as
    [->|[->|[->|[->|[->|[->|[->|[->|[->|[->|[->| ->]]]]]]]]]]].

Ltac table_lookup :=
  repeat match goal with
  | |- context [nth (Z.to_nat ?k) ?t ?d] =>
      let v := eval vm_compute in (nth (Z.to_nat k) t d) in
      change (nth (Z.to_nat k) t d) with v
  | Hyp : context [nth (Z.to_nat ?k) ?t ?d] |- _ =>
      let v := eval vm_compute in (nth (Z.to_nat k) t d) in
      change (nth (Z.to_nat k) t d) with v in Hyp
  end.

(** A year has 365 days, or 366 when it is a leap year. *)
Lemma days_before_year_succ (y : Z) :
  days_before_year (y + 1)
  = days_before_year y + (if is_leap y then 366 else 365).
Proof.
  unfold days_before_year, is_leap.
  replace (y + 1 - 1) with y by lia.
  destruct (Z.eqb_spec (y mod 4) 0), (Z.eqb_spec (y mod 100) 0),
    (Z.eqb_spec (y mod 400) 0); cbn [andb orb negb];
    Z.div_mod_to_equations; lia.
Qed.

Lemma days_before_year_mono (y y' : Z) :
  y <= y' -> days_before_year y <= days_before_year y'.
Proof.
  unfold days_before_year. intros Hy.
  assert (H4 : (y - 1) / 4 <= (y' - 1) / 4) by (apply Z.div_le_mono; lia).
  assert (H400 : (y - 1) / 400 <= (y' - 1) / 400)
    by (apply Z.div_le_mono; lia).
  assert (H100 : (y' - 1) / 100 - (y - 1) / 100 <= y' - y)
    by (Z.div_mod_to_equations; lia).
  cbn zeta. lia.
Qed.

(** A day of the year lies between 1 and the length of the year. *)
Lemma day_of_year_bounds (y m d : Z) :
  1 <= m <= 12 -> 1 <= d <= days_in_month y m ->
  1 <= days_before_month y m + d <= (if is_leap y then 366 else 365).
Proof.
  intros Hm Hd. unfold days_before_month, days_in_month in *.
  remember (is_leap y) as leap eqn:Hleap. clear Hleap.
  each_month m Hm; destruct leap; table_lookup; cbn in *; lia.
Qed.

(** Within a year, a later month starts after the earlier month ends. *)
Lemma days_before_month_mono (y m m' d : Z) :
  1 <= m <= 12 -> 1 <= m' <= 12 -> m < m' ->
  d <= days_in_month y m ->
  days_before_month y m + d <= days_before_month y m'.
Proof.
  intros Hm Hm' Hlt Hd. unfold days_before_month, days_in_month in *.
  remember (is_leap y) as leap eqn:Hleap. clear Hleap.
  each_month m Hm; each_month m' Hm'; try lia;
    destruct leap; table_lookup; cbn in *; lia.
Qed.

(** The ordinal of a date grows strictly with the date. *)
Lemma date2num_mono (a b : Timestamp) :
  Timestamp_lt a b -> date2num a < date2num b.
Proof.
  destruct a as [ya ma da Ha], b as [yb mb db Hb].
  rewrite Timestamp_lt_spec. unfold date2num, toordinal, ymd2ord. cbn.
  apply valid_date_spec in Ha as (Hya & Hma & Hda).
  apply valid_date_spec in Hb as (Hyb & Hmb & Hdb).
  intros [Hy|[-> [Hm|[-> Hd]]]].
  - pose proof (day_of_year_bounds ya ma da Hma Hda) as Hba.
    pose proof (day_of_year_bounds yb mb db Hmb Hdb) as Hbb.
    pose proof (days_before_year_succ ya) as Hsucc.
    pose proof (days_before_year_mono (ya + 1) yb) as Hmono.
    lia.
  - pose proof (days_before_month_mono yb ma mb da Hma Hmb Hm) as Hmono.
    lia.
  - lia.
Qed.

(** ** Candlestick frame *)

Section Candlestick_facts.
Context {A : Type} `{Number A}.

Lemma ADI_candle_rows (df : DataFrame A) :
  rows (ADI_candle df)
  = (fun r : Timestamp * list A =>
       (r.1, of_int (date2num r.1) :: take 4 r.2)) <$> rows df.
Proof.
  unfold ADI_candle. cbn [rows].
  induction (rows df) as [|r l IH]; [done|].
  cbn. f_equal. exact IH.
Qed.

(** C8.  The candlestick frame has one row per row of the series, in
    the same order: the ordinal of the date, the whole days since the
    epoch, followed by the first four cells, which are open, high, low
    and close in a file of the usual layout.  Nothing is filtered or
    merged; an empty series gives an empty frame; and the ordinals of a
    series whose dates increase strictly increase strictly. *)
Theorem ADI_candle_spec (df : DataFrame A) :
  columns (ADI_candle df) = "Date" :: take 4 (columns df)
  /\ (columns df = ["Open"; "High"; "Low"; "Close"; "Adj Close"; "Volume"] ->
      columns (ADI_candle df) = ["Date"; "Open"; "High"; "Low"; "Close"])
  /\ length (rows (ADI_candle df)) = length (rows df)
  /\ (forall i ts cells,
        rows df !! i = Some (ts, cells) ->
        rows (ADI_candle df) !! i
        = Some (ts, of_int (date2num ts) :: take 4 cells))
  /\ (rows df = [] -> rows (ADI_candle df) = [])
  /\ (Sorted Timestamp_lt (rows df).*1 ->
      Sorted Z.lt (date2num <$> (rows (ADI_candle df)).*1)).
Proof.
  rewrite ADI_candle_rows.
  split; [done|].
  split; [intros Hc; unfold ADI_candle; cbn [columns]; by rewrite Hc|].
  split; [by rewrite length_fmap|].
  split; [intros i ts cells Hi; by rewrite list_lookup_fmap, Hi|].
  split; [by intros ->|].
  intros Hsorted.
  assert (Hidx : ((fun r : Timestamp * list A =>
                     (r.1, of_int (date2num r.1) :: take 4 r.2))
                    <$> rows df).*1 = (rows df).*1).
  { rewrite <- list_fmap_compose. apply list_fmap_ext.
    by intros i [ts cells] _. }
  rewrite Hidx. eapply Sorted_fmap; [|exact Hsorted]. apply date2num_mono.
Qed.

End Candlestick_facts.


(** ** The sample data, evaluated *)

Lemma len_close10 : len (items close10) = 10.
Proof. reflexivity. Qed.



(** In binary64 a window of eight is not added from left to right.
    Of a close at [2 ^ 53] and seven at 1 the eight partial sums make
    [2 ^ 53 + 6], one by one the seven would be lost to rounding. *)
Example get_SMA_blocked_sum :
  np_sum (window steep_close 8 0) = 0x1.0000000000003p+53%float
  /\ fold_left PrimFloat.add (window steep_close 8 0) 0%float = 0x1p+53%float
  /\ get_SMA steep_close 8
     = Ok (mkSeries "8-SMA" [(Jan14, 0x1.0000000000003p+50%float)]).
Proof. repeat split; vm_compute; reflexivity. Qed.

(** On whole numbers the sum wraps around: two closes at [2 ^ 62] have
    the average [- 2 ^ 62]. *)
Example get_SMA_int64_wraps :
  get_SMA whole_close 2
  = Ok (mkSeries "2-SMA"
          [(Jan06, np_float64 (-0x1p+62)%float);
           (Jan07, np_float64 0x1p+61%float)]).
Proof. vm_compute. reflexivity. Qed.

(** [get_EMA_spec] at the ten closes and period 3. *)
Lemma get_EMA_spec_witness :
  1 <= 3 < len (items close10)
  /\ exists r seed,
       get_EMA close10 3 = Ok r
       /\ len (items r) = len (items close10) - 3
       /\ index r = drop 3 (index close10)
       /\ exists c, values close10 !! 3%nat = Some c
            /\ values r !! 0%nat
               = Some (add (mul (sub c seed) (smoothing 3)) seed).
Proof.
  assert (Hp : 1 <= 3 < len (items close10)) by (rewrite len_close10; lia).
  split; [exact Hp|].
  destruct (get_EMA_spec close10 3 Hp)
    as (r & sma & seed & Hr & _ & _ & Hlen & Hidx & Hfirst & _).
  exists r, seed. repeat split; [exact Hr|exact Hlen|exact Hidx|exact Hfirst].
Defined.

(** [get_EMA_short_series] at the ten closes and period 10. *)
Lemma get_EMA_short_series_witness :
  len (items close10) <= 10
  /\ get_EMA close10 10 = Raise IndexError
  /\ exists r, get_SMA close10 10 = Ok r /\ items r = [].
Proof.
  assert (Hp : len (items close10) <= 10) by (rewrite len_close10; lia).
  split; [exact Hp|]. exact (get_EMA_short_series close10 10 Hp).
Defined.

(** C3 fails at period 0: on four closes at 60.08, [get_SMA] and
    [get_EMA] both return a series, of four values that are not
    numbers. *)
Lemma period_zero_counterexample :
  0 < 1
  /\ get_SMA flat_close 0
     = Ok (mkSeries "0-SMA" (zip (index flat_close) (replicate 4 nan)))
  /\ get_EMA flat_close 0
     = Ok (mkSeries "0-EMA" (zip (index flat_close) (replicate 4 nan))).
Proof. split; [lia|]. split; vm_compute; reflexivity. Qed.

(** [period_below_one] at the ten closes, periods -2 and 0. *)
Lemma period_below_one_witness :
  (-2 < 0 /\ get_SMA close10 (-2) = Raise ValueError
          /\ get_EMA close10 (-2) = Raise ValueError)
  /\ (0 = 0 /\ exists r, get_SMA close10 0 = Ok r
                  /\ index r = index close10).
Proof.
  split.
  - assert (Hp : -2 < 0) by lia. split; [exact Hp|].
    destruct (proj1 (period_below_one close10 (-2)) Hp) as (Hs & He & _).
    split; [exact Hs|exact He].
  - split; [reflexivity|].
    destruct (proj2 (period_below_one close10 0) eq_refl)
      as [(r & Hr & Hidx & _) _].
    exists r. split; [exact Hr|exact Hidx].
Defined.

(** C10 fails in binary64: the mean of three closes at 60.08 is
    60.080000000000005, above the greatest close of its window. *)
Lemma get_SMA_rounding_counterexample :
  1 <= 3 < len (items flat_close)
  /\ get_SMA flat_close 3
     = Ok (mkSeries "3-SMA" [(Jan07, 0x1.e0a3d70a3d70bp+5%float)])
  /\ window flat_close 3 0 = replicate 3 0x1.e0a3d70a3d70ap+5%float
  /\ maximum (window flat_close 3 0) = Some 0x1.e0a3d70a3d70ap+5%float
  /\ bounded_by (window flat_close 3 0) 0x1.e0a3d70a3d70bp+5%float = false.
Proof.
  split; [change (len (items flat_close)) with 4; lia|].
  repeat split; vm_compute; reflexivity.
Qed.

(** [get_SMA_within_window] at the ten closes and period 3. *)
Lemma get_SMA_within_window_witness :
  1 <= 3 < len (items close10)
  /\ exists r, get_SMA close10 3 = Ok r
       /\ forall i v, values r !! i = Some v ->
            bounded_by (window close10 3 i) v = true.
Proof.
  assert (Hp : 1 <= 3 < len (items close10)) by (rewrite len_close10; lia).
  split; [exact Hp|]. exact (get_SMA_within_window close10 3 Hp).
Defined.

(** [read_frame_interval] at the file in date order, for the year 2015:
    the row dated 2015-01-01 is dropped, the row dated 2015-12-31 is
    kept, and three of the four rows remain. *)
Lemma read_frame_interval_witness :
  let body :=
    match in_order with Dated _ body => body | Undated _ _ => [] end in
  let kept := List.filter (mask "2015-01-01" "2015-12-31") body in
  Forall (fun row => is_Ok (iso_Timestamp row.1) = true) kept
  /\ Forall (fun row => String.leb "2015-01-01" row.1 = true
                        /\ String.leb row.1 "2015-12-31" = true) body
  /\ (exists df,
        get_data iso_Timestamp [("01ADI.csv", Ok in_order)]
          "2015-01-01" "2015-12-31" = Ok {[ key_of "01ADI.csv" := df ]}
        /\ length (rows df) = length kept)
  /\ length kept = (4 - 1)%nat.
Proof.
  intros body kept.
  assert (Hparse : Forall (fun row => is_Ok (iso_Timestamp row.1) = true) kept).
  { unfold kept, body. cbn. repeat constructor. }
  assert (Hspan : Forall (fun row => String.leb "2015-01-01" row.1 = true
                            /\ String.leb row.1 "2015-12-31" = true) body).
  { unfold body. cbn. repeat constructor. }
  split; [exact Hparse|]. split; [exact Hspan|].
  destruct (read_frame_interval iso_Timestamp "2015-01-01" "2015-12-31"
              "01ADI.csv" yahoo_columns body)
    as (_ & _ & _ & _ & Hframe & Hcount).
  split.
  - destruct (Hframe Hparse) as (df & _ & Hdata & _ & Hlen & _).
    exists df. split; [exact Hdata|exact Hlen].
  - exact (Hcount Hspan).
Defined.

(** C6 fails on a directory of two files: the first is read, the second
    has no ["Date"] column or a date that does not parse, and [get_data]
    returns no mapping at all. *)
Lemma get_data_batch_counterexample :
  is_Ok (read_frame iso_Timestamp "2015-01-01" "2015-12-31" (Ok in_order))
  = true
  /\ get_data iso_Timestamp
       [("01ADI.csv", Ok in_order); ("02AEE.csv", Ok no_date)]
       "2015-01-01" "2015-12-31" = Raise KeyError
  /\ get_data iso_Timestamp
       [("01ADI.csv", Ok in_order); ("02AEE.csv", Ok bad_date)]
       "2015-01-01" "2015-12-31" = Raise ValueError
  /\ get_data iso_Timestamp
       [("01ADI.csv", Ok in_order); ("02AEE.csv", Raise ParserError)]
       "2015-01-01" "2015-12-31" = Raise ParserError.
Proof. repeat split; vm_compute; reflexivity. Qed.

(** [get_data_aborts_on_failure] at the same directory, and at the
    directory of the first file alone. *)
Lemma get_data_aborts_on_failure_witness :
  (("02AEE.csv", Ok no_date)
     ∈ [("01ADI.csv", Ok in_order); ("02AEE.csv", Ok no_date)]
   /\ read_frame iso_Timestamp "2015-01-01" "2015-12-31" (Ok no_date)
      = Raise KeyError
   /\ exists e',
        get_data iso_Timestamp
          [("01ADI.csv", Ok in_order); ("02AEE.csv", Ok no_date)]
          "2015-01-01" "2015-12-31" = Raise e')
  /\ (Forall (fun entry : string * result (raw_frame Q) =>
        is_Ok (read_frame iso_Timestamp "2015-01-01" "2015-12-31" entry.2)
        = true) [("01ADI.csv", Ok in_order)]
      /\ exists data,
           get_data iso_Timestamp [("01ADI.csv", Ok in_order)]
             "2015-01-01" "2015-12-31" = Ok data
           /\ is_Some (data !! "01ADI")).
Proof.
  split.
  - assert (Hin : ("02AEE.csv", Ok no_date)
       ∈ [("01ADI.csv", Ok in_order); ("02AEE.csv", @Ok (raw_frame Q) no_date)]).
    { apply elem_of_cons. right. apply elem_of_cons. by left. }
    split; [exact Hin|]. split; [reflexivity|].
    exact (proj1 (get_data_aborts_on_failure iso_Timestamp
                    "2015-01-01" "2015-12-31" _) _ KeyError Hin eq_refl).
  - assert (Hall : Forall (fun entry : string * result (raw_frame Q) =>
        is_Ok (read_frame iso_Timestamp "2015-01-01" "2015-12-31" entry.2)
        = true) [("01ADI.csv", Ok in_order)]).
    { repeat constructor. }
    split; [exact Hall|].
    destruct (proj2 (get_data_aborts_on_failure iso_Timestamp
                       "2015-01-01" "2015-12-31" _) Hall) as (data & Hd & Hk).
    exists data. split; [exact Hd|].
    apply (Hk ("01ADI.csv", Ok in_order)). apply elem_of_cons. by left.
Defined.

(** C7 fails on a file whose rows are not in date order: the frame has
    the dates in the order of the file, the later day first and one day
    twice. *)
Lemma get_data_unsorted_counterexample :
  exists df,
    get_data iso_Timestamp [("01ADI.csv", Ok out_of_order)]
      "2015-01-01" "2015-12-31" = Ok {[ "01ADI" := df ]}
    /\ (rows df).*1 = [Jan06; Jan02; Jan02]
    /\ ~ Sorted Timestamp_lt (rows df).*1.
Proof.
  eexists. split; [vm_compute; reflexivity|]. cbn [rows].
  split; [reflexivity|].
  intros Hs. apply Sorted_inv in Hs as [_ Hhd].
  apply HdRel_inv in Hhd. exact Hhd.
Qed.

(** [read_frame_keeps_order] at the file in date order. *)
Lemma read_frame_keeps_order_witness :
  let body :=
    match in_order with Dated _ body => body | Undated _ _ => [] end in
  exists tss,
    mapM iso_Timestamp body.*1 = Ok tss
    /\ Sorted Timestamp_lt tss
    /\ exists df,
         read_frame iso_Timestamp "2015-01-01" "2015-12-31"
           (Ok (Dated yahoo_columns body)) = Ok df
         /\ Sorted Timestamp_lt (rows df).*1.
Proof.
  intros body.
  exists [mkTimestamp 2015 1 1 I; Jan02; Jan05; Dec31].
  assert (Hparse : mapM iso_Timestamp body.*1
                   = Ok [mkTimestamp 2015 1 1 I; Jan02; Jan05; Dec31])
    by reflexivity.
  assert (Hsorted : Sorted Timestamp_lt
                      [mkTimestamp 2015 1 1 I; Jan02; Jan05; Dec31])
    by (repeat constructor).
  split; [exact Hparse|]. split; [exact Hsorted|].
  destruct (read_frame_keeps_order iso_Timestamp "2015-01-01" "2015-12-31"
              yahoo_columns body _ Hparse) as (df & Hdf & _ & _ & Hkeep).
  exists df. split; [exact Hdf|exact (Hkeep Hsorted)].
Defined.

(** [ADI_candle_spec] at the frame of 2015 and at the empty frame. *)
Lemma ADI_candle_spec_witness :
  columns ADI_2015 = yahoo_columns
  /\ Sorted Timestamp_lt (rows ADI_2015).*1
  /\ columns (ADI_candle ADI_2015) = ["Date"; "Open"; "High"; "Low"; "Close"]
  /\ Sorted Z.lt (date2num <$> (rows (ADI_candle ADI_2015)).*1)
  /\ rows (ADI_candle (mkDataFrame yahoo_columns ([] : list (Timestamp * list Q))))
     = [].
Proof.
  assert (Hsorted : Sorted Timestamp_lt (rows ADI_2015).*1)
    by (repeat constructor).
  destruct (ADI_candle_spec ADI_2015) as (_ & Hcols & _ & _ & _ & Hord).
  destruct (ADI_candle_spec
              (mkDataFrame yahoo_columns ([] : list (Timestamp * list Q))))
    as (_ & _ & _ & _ & Hnil & _).
  split; [reflexivity|]. split; [exact Hsorted|].
  split; [exact (Hcols eq_refl)|]. split; [exact (Hord Hsorted)|].
  exact (Hnil eq_refl).
Defined.

(** The candlestick frame of 2015, row by row. *)
Example ADI_candle_2015 :
  rows (ADI_candle ADI_2015)
  = [(Jan02, [735600; 61; 63; 61; 62]%Q);
     (Jan05, [735603; 62; 64; 61; 63]%Q);
     (Dec31, [735963; 63; 65; 62; 64]%Q)].
Proof. reflexivity. Qed.

(** ** Keys of the mapping *)

(** The key is the file name less its last four characters. *)
Lemma key_of_four (stem ext : string) :
  String.length ext = 4%nat -> key_of (stem +:+ ext) = stem.
Proof.
  intros Hext. unfold key_of, slice_to, len.
  assert (Hlen : forall s, length (String.list_ascii_of_string s)
                           = String.length s).
  { induction s as [|c s IH]; cbn; congruence. }
  assert (Happ : forall s t, String.list_ascii_of_string (s +:+ t)
                 = String.list_ascii_of_string s
                   ++ String.list_ascii_of_string t).
  { induction s as [|c s IH]; intros t; [done|].
    change (String c s +:+ t) with (String c (s +:+ t)).
    cbn [String.list_ascii_of_string]. by rewrite IH. }
  rewrite Happ, length_app, !Hlen, Hext. cbn [Z.ltb Z.compare].
  replace (Z.to_nat (Z.max 0 (Z.of_nat (String.length stem + 4) + -4)))
    with (String.length stem) by lia.
  rewrite <- (Hlen stem), take_app_length.
  apply String.string_of_list_ascii_of_string.
Qed.

(** C9 fails on an extension that is not three characters long: the
    gzip file [01ADI.gz], which [pd.read_csv] reads, is stored under
    [01AD], and nothing is stored under [01ADI]. *)
Theorem key_of_short_extension :
  key_of "01ADI.csv" = "01ADI"
  /\ key_of "01ADI.gz" = "01AD"
  /\ key_of "01ADI.json" = "01ADI."
  /\ exists df data,
       get_data iso_Timestamp [("01ADI.gz", Ok in_order)]
         "2015-01-01" "2015-12-31" = Ok data
       /\ data !! "01AD" = Some df
       /\ data !! "01ADI" = None.
Proof.
  repeat split; try reflexivity.
  eexists _, _. split; [vm_compute; reflexivity|].
  split; vm_compute; reflexivity.
Qed.


(** * Further properties *)

(** ** Moving averages: later rows, earlier rows, dates *)

Section MovingAverages_more.
Context {A : Type} `{Number A}.
Implicit Types (s : Series A) (p : Z) (i k : nat) (t : list (Timestamp * A)).

Lemma values_app label (l t : list (Timestamp * A)) :
  values (mkSeries label (l ++ t)) = l.*2 ++ t.*2.
Proof. unfold values. cbn. by rewrite fmap_app. Qed.

(** A window that ends inside the series does not see the rows appended
    after it. *)
Lemma window_app s t p i :
  (i + Z.to_nat p <= length (items s))%nat ->
  window (mkSeries (name s) (items s ++ t)) p i = window s p i.
Proof.
  intros Hi. unfold window. rewrite values_app.
  change (items s).*2 with (values s).
  rewrite drop_app_le by (rewrite length_values; lia).
  apply take_app_le. rewrite length_drop, length_values. lia.
Qed.

(** The window at position [i] of the series without its first [k] rows
    is the window at position [k + i] of the series. *)
Lemma window_drop s p i k :
  window (mkSeries (name s) (drop k (items s))) p i = window s p (k + i).
Proof.
  unfold window, values. cbn [items].
  by rewrite fmap_drop, drop_drop.
Qed.

Lemma zip_app_prefix {X Y} (a b : list X) (c d : list Y) :
  length a = length c -> zip a c `prefix_of` zip (a ++ b) (c ++ d).
Proof.
  intros Hl. rewrite zip_with_app by done. by apply prefix_app_r.
Qed.

(** X1.  [get_SMA] does not look ahead: when rows are appended to a
    series, the moving average of the longer series begins with the
    moving average of the shorter one, dates and values. *)
Theorem get_SMA_no_lookahead s t p :
  0 <= p ->
  exists r r',
    get_SMA s p = Ok r
    /\ get_SMA (mkSeries (name s) (items s ++ t)) p = Ok r'
    /\ items r `prefix_of` items r'.
Proof.
  intros Hp. eexists _, _.
  split; [by apply get_SMA_nonneg|]. split; [by apply get_SMA_nonneg|].
  cbn [items]. unfold index. cbn [items].
  set (n := length (items s)).
  destruct (decide (Z.of_nat n <= p)) as [Hshort|Hlong].
  - replace (Z.to_nat (len (items s) - p)) with 0%nat by (unfold len; lia).
    cbn. rewrite zip_with_nil_r. apply prefix_nil.
  - rewrite fmap_app, drop_app_le by (rewrite length_fmap; lia).
    unfold len. rewrite length_app.
    replace (Z.to_nat (Z.of_nat (length (items s) + length t) - p))
      with (Z.to_nat (Z.of_nat n - p) + length t)%nat by lia.
    rewrite seq_app, fmap_app. fold n.
    replace (SMA_at (mkSeries (name s) (items s ++ t)) p
               <$> seq 0 (Z.to_nat (Z.of_nat n - p)))
      with (SMA_at s p <$> seq 0 (Z.to_nat (Z.of_nat n - p))).
    + apply zip_app_prefix.
      rewrite length_drop, !length_fmap, length_seq. lia.
    + apply list_fmap_ext. intros j i Hi. apply lookup_seq in Hi as [-> Hi].
      unfold SMA_at. rewrite window_app; [done|]. fold n. lia.
Qed.

(** X2.  The moving average of a later part of a series is the later
    part of its moving average: without its first [k] rows, the series
    gives the same values on the same dates, less the first [k]. *)
Theorem get_SMA_drop s p k :
  0 <= p ->
  exists r r',
    get_SMA s p = Ok r
    /\ get_SMA (mkSeries (name s) (drop k (items s))) p = Ok r'
    /\ items r' = drop k (items r).
Proof.
  intros Hp. eexists _, _.
  split; [by apply get_SMA_nonneg|]. split; [by apply get_SMA_nonneg|].
  cbn [items]. unfold index. cbn [items].
  rewrite zip_with_drop, fmap_drop, !drop_drop.
  f_equal; [f_equal; lia|].
  rewrite <- fmap_drop, drop_seq. unfold len. rewrite length_drop.
  replace (Z.to_nat (Z.of_nat (length (items s) - k) - p))
    with (Z.to_nat (Z.of_nat (length (items s)) - p) - k)%nat by lia.
  assert (Hseq : forall m, seq (0 + k) m = Nat.add k <$> seq 0 m).
  { intros m. rewrite fmap_add_seq. f_equal. lia. }
  rewrite Hseq, <- list_fmap_compose.
  apply list_fmap_ext. intros j i _. unfold SMA_at. cbn.
  by rewrite window_drop.
Qed.

Lemma close_at_app s t j :
  (j < length (items s))%nat ->
  close_at (mkSeries (name s) (items s ++ t)) j = close_at s j.
Proof.
  intros Hj. unfold close_at. rewrite values_app.
  change (items s).*2 with (values s).
  by rewrite lookup_app_l by (rewrite length_values; lia).
Qed.

Lemma EMA_at_app s t (pn : nat) (seed k : A) i :
  (pn + i < length (items s))%nat ->
  EMA_at (mkSeries (name s) (items s ++ t)) pn seed k i
  = EMA_at s pn seed k i.
Proof.
  induction i as [|i IH]; intros Hi; cbn [EMA_at].
  - by rewrite close_at_app by lia.
  - by rewrite close_at_app, IH by lia.
Qed.

(** X3.  [get_EMA] does not look ahead either: on a series long enough
    to seed it, appending rows leaves the values already there as they
    are. *)
Theorem get_EMA_no_lookahead s t p :
  0 <= p < len (items s) ->
  exists r r',
    get_EMA s p = Ok r
    /\ get_EMA (mkSeries (name s) (items s ++ t)) p = Ok r'
    /\ items r `prefix_of` items r'.
Proof.
  intros Hp. unfold len in Hp. set (n := length (items s)) in *.
  eexists _, _.
  split; [apply get_EMA_nonneg; unfold len; lia|].
  split. { apply get_EMA_nonneg. cbn [items]. unfold len.
           rewrite length_app. lia. }
  cbn [items]. unfold index. cbn [items].
  rewrite fmap_app, drop_app_le by (rewrite length_fmap; lia).
  unfold len. rewrite length_app. fold n.
  replace (Z.to_nat (Z.of_nat (n + length t) - p))
    with (Z.to_nat (Z.of_nat n - p) + length t)%nat by lia.
  rewrite seq_app, fmap_app.
  replace (EMA_at (mkSeries (name s) (items s ++ t)) (Z.to_nat p)
             (SMA_at (mkSeries (name s) (items s ++ t)) p 0) (smoothing p)
             <$> seq 0 (Z.to_nat (Z.of_nat n - p)))
    with (EMA_at s (Z.to_nat p) (SMA_at s p 0) (smoothing p)
            <$> seq 0 (Z.to_nat (Z.of_nat n - p))).
  - apply zip_app_prefix.
    rewrite length_drop, !length_fmap, length_seq. lia.
  - apply list_fmap_ext. intros j i Hi. apply lookup_seq in Hi as [-> Hi].
    unfold SMA_at at 2. rewrite window_app by (fold n; lia).
    fold (SMA_at s p 0). symmetry. apply EMA_at_app. fold n. lia.
Qed.

Lemma Sorted_drop {X} (R : relation X) `{!Transitive R} (l : list X) k :
  Sorted R l -> Sorted R (drop k l).
Proof.
  intros Hl. apply StronglySorted_Sorted.
  eapply StronglySorted_sublist; [apply sublist_drop|].
  apply Sorted_StronglySorted; [|done]. intros a b c. apply transitivity.
Qed.

(** X4.  The two averages of one series and one period carry the same
    dates, a final part of the dates of the series; when the dates of
    the series increase strictly, so do theirs. *)
Theorem moving_average_dates s p :
  0 <= p < len (items s) ->
  exists r e,
    get_SMA s p = Ok r /\ get_EMA s p = Ok e
    /\ index e = index r
    /\ index r `suffix_of` index s
    /\ (Sorted Timestamp_lt (index s) -> Sorted Timestamp_lt (index r)).
Proof.
  intros Hp. eexists _, _.
  split; [apply get_SMA_nonneg; lia|]. split; [by apply get_EMA_nonneg|].
  assert (Hld : length (drop (Z.to_nat p) (index s))
                = Z.to_nat (len (items s) - p)).
  { rewrite length_drop, length_index. unfold len. lia. }
  rewrite !index_zip by (by rewrite length_fmap, length_seq).
  split; [done|]. split; [apply suffix_drop|].
  apply Sorted_drop. apply _.
Qed.

(** X5.  When the two functions raise and when they return: [get_SMA]
    returns for every period from 0 up and raises [ValueError] below 0;
    [get_EMA] returns for [0 <= p < n], raises [ValueError] below 0 and
    [IndexError] from [n] up. *)
Theorem moving_average_outcomes s p :
  (is_Ok (get_SMA s p) = true <-> 0 <= p)
  /\ (get_SMA s p = Raise ValueError <-> p < 0)
  /\ (is_Ok (get_EMA s p) = true <-> 0 <= p < len (items s))
  /\ (get_EMA s p = Raise ValueError <-> p < 0)
  /\ (get_EMA s p = Raise IndexError <-> len (items s) <= p).
Proof.
  pose proof (len_nonneg (items s)) as Hn.
  destruct (Z.lt_ge_cases p 0) as [Hneg|Hpos].
  - assert (He : get_EMA s p = Raise ValueError)
      by (unfold get_EMA; by rewrite get_SMA_negative).
    rewrite He, get_SMA_negative by done. cbn.
    repeat split; try done; try lia; intros; try lia; try discriminate.
  - rewrite get_SMA_nonneg by done. cbn [is_Ok].
    destruct (Z.lt_ge_cases p (len (items s))) as [Hin|Hout].
    + rewrite get_EMA_nonneg by lia. cbn [is_Ok].
      repeat split; try done; try lia; intros; try lia; try discriminate.
    + assert (He : get_EMA s p = Raise IndexError).
      { unfold get_EMA. rewrite get_SMA_nonneg, bind_Ok by done.
        replace (Z.to_nat (len (items s) - p)) with 0%nat by lia.
        cbn. by rewrite zip_with_nil_r. }
      rewrite He. cbn.
      repeat split; try done; try lia; intros; try lia; try discriminate.
Qed.

End MovingAverages_more.


(** ** Exact arithmetic: bounds, constant series, period 1 *)

Section Exact_more.
Implicit Types (s : Series Q) (w : list Q) (p : Z) (lo hi c : Q).

Lemma arithmetic_mean_between lo hi w :
  w <> [] -> Forall (fun x => lo <= x /\ x <= hi)%Q w ->
  (lo <= arithmetic_mean w /\ arithmetic_mean w <= hi)%Q.
Proof.
  intros Hne Hall.
  destruct (np_sum_bounds lo hi w 0%Q Hall) as [Hs1 Hs2].
  assert (Hpos : (0 < inject_Z (len w))%Q).
  { change 0%Q with (inject_Z 0). rewrite <- Zlt_Qlt. unfold len.
    destruct w; [done|]. cbn [length]. lia. }
  unfold arithmetic_mean. cbn [div add zero of_int Q_Number].
  split.
  - apply Qle_shift_div_l; [done|]. eapply Qle_trans; [|exact Hs1]. lra.
  - apply Qle_shift_div_r; [done|]. eapply Qle_trans; [exact Hs2|]. lra.
Qed.

Lemma SMA_at_between lo hi s p i :
  1 <= p -> (i + Z.to_nat p <= length (items s))%nat ->
  Forall (fun x => lo <= x /\ x <= hi)%Q (values s) ->
  (lo <= SMA_at s p i /\ SMA_at s p i <= hi)%Q.
Proof.
  intros Hp Hi Hall.
  assert (Hw : length (window s p i) = Z.to_nat p) by (by apply length_window).
  rewrite (SMA_at_exact s p i ltac:(lia) Hw).
  apply arithmetic_mean_between.
  - intros Hnil. rewrite Hnil in Hw. cbn in Hw. lia.
  - unfold window. by apply Forall_take, Forall_drop.
Qed.

(** For a period from 1 up the smoothing factor lies in [0, 1]. *)
Lemma smoothing_unit p :
  1 <= p -> (0 <= smoothing (A:=Q) p /\ smoothing (A:=Q) p <= 1)%Q.
Proof.
  intros Hp. unfold smoothing. cbn [div of_int Q_Number].
  assert (Hpos : (0 < inject_Z (p + 1))%Q).
  { change 0%Q with (inject_Z 0). rewrite <- Zlt_Qlt. lia. }
  assert (Htwo : (inject_Z 2 <= inject_Z (p + 1))%Q).
  { rewrite <- Zle_Qle. lia. }
  split.
  - apply Qle_shift_div_l; [done|]. change (inject_Z 2) with 2%Q. lra.
  - apply Qle_shift_div_r; [done|]. lra.
Qed.

(** A step of the recurrence stays between its two arguments' bounds:
    it is [close * k + prev * (1 - k)]. *)
Lemma EMA_step_between lo hi (k c prev : Q) :
  (0 <= k /\ k <= 1)%Q -> (lo <= c /\ c <= hi)%Q ->
  (lo <= prev /\ prev <= hi)%Q ->
  (lo <= EMA_step k c prev /\ EMA_step k c prev <= hi)%Q.
Proof.
  intros [Hk0 Hk1] [Hc1 Hc2] [Hp1 Hp2].
  unfold EMA_step. cbn [add mul sub Q_Number].
  assert (H1 : (0 <= (c - lo) * k)%Q) by (apply Qmult_le_0_compat; lra).
  assert (H2 : (0 <= (prev - lo) * (1 - k))%Q)
    by (apply Qmult_le_0_compat; lra).
  assert (H3 : (0 <= (hi - c) * k)%Q) by (apply Qmult_le_0_compat; lra).
  assert (H4 : (0 <= (hi - prev) * (1 - k))%Q)
    by (apply Qmult_le_0_compat; lra).
  split; lra.
Qed.

Lemma close_at_between lo hi s j :
  (j < length (items s))%nat ->
  Forall (fun x => lo <= x /\ x <= hi)%Q (values s) ->
  (lo <= close_at s j /\ close_at s j <= hi)%Q.
Proof.
  intros Hj Hall. unfold close_at.
  destruct (lookup_lt_is_Some_2 (values s) j) as [c Hc];
    [by rewrite length_values|].
  rewrite Hc. cbn. by eapply (Forall_lookup_1 _ _ _ _ Hall).
Qed.

Lemma EMA_at_between lo hi s (pn : nat) (seed k : Q) i :
  (0 <= k /\ k <= 1)%Q -> (lo <= seed /\ seed <= hi)%Q ->
  (pn + i < length (items s))%nat ->
  Forall (fun x => lo <= x /\ x <= hi)%Q (values s) ->
  (lo <= EMA_at s pn seed k i /\ EMA_at s pn seed k i <= hi)%Q.
Proof.
  intros Hk Hseed Hi Hall. induction i as [|i IH]; cbn [EMA_at].
  - apply EMA_step_between; [done| |done].
    apply close_at_between; [lia|done].
  - apply EMA_step_between; [done| |apply IH; lia].
    apply close_at_between; [lia|done].
Qed.

(** X6.  In exact arithmetic every value of the exponential moving
    average lies within any bounds that hold all the close prices of
    the series. *)
Theorem get_EMA_between lo hi s p :
  1 <= p < len (items s) ->
  Forall (fun x => lo <= x /\ x <= hi)%Q (values s) ->
  exists r, get_EMA s p = Ok r
    /\ Forall (fun v => lo <= v /\ v <= hi)%Q (values r).
Proof.
  intros Hp Hall. eexists. split; [apply get_EMA_nonneg; lia|].
  rewrite values_zip.
  2:{ rewrite length_fmap, length_seq, length_drop, length_index.
      unfold len. lia. }
  apply Forall_fmap, Forall_forall. intros i Hi.
  apply elem_of_seq in Hi. cbn.
  apply EMA_at_between; [apply smoothing_unit; lia| |unfold len in *; lia|done].
  apply SMA_at_between; [lia|unfold len in *; lia|done].
Qed.

(** X7.  In exact arithmetic the averages of a series whose close
    prices all equal [c] equal [c] at every position. *)
Theorem constant_series s p c :
  1 <= p < len (items s) ->
  Forall (fun x => x == c)%Q (values s) ->
  exists r e,
    get_SMA s p = Ok r /\ get_EMA s p = Ok e
    /\ Forall (fun v => v == c)%Q (values r)
    /\ Forall (fun v => v == c)%Q (values e).
Proof.
  intros Hp Hall.
  assert (Hbounds : Forall (fun x => c <= x /\ x <= c)%Q (values s)).
  { eapply Forall_impl; [exact Hall|]. intros x Hx. cbn in Hx. lra. }
  assert (Hlen : length (drop (Z.to_nat p) (index s))
                 = Z.to_nat (len (items s) - p)).
  { rewrite length_drop, length_index. unfold len. lia. }
  eexists _, _.
  split; [apply get_SMA_nonneg; lia|]. split; [apply get_EMA_nonneg; lia|].
  rewrite !values_zip by (by rewrite length_fmap, length_seq).
  split; apply Forall_fmap, Forall_forall; intros i Hi;
    apply elem_of_seq in Hi; cbn.
  - destruct (SMA_at_between c c s p i) as [H1 H2];
      [lia|unfold len in *; lia|done|]. by apply Qle_antisym.
  - destruct (EMA_at_between c c s (Z.to_nat p) (SMA_at s p 0)
                (smoothing p) i) as [H1 H2];
      [apply smoothing_unit; lia| |unfold len in *; lia|done
      |by apply Qle_antisym].
    apply SMA_at_between; [lia|unfold len in *; lia|done].
Qed.

Lemma EMA_at_one s (seed k : Q) i :
  (k == 1)%Q -> (EMA_at s 1 seed k i == close_at s (1 + i))%Q.
Proof.
  intros Hk.
  assert (Hstep : forall c prev : Q, (EMA_step k c prev == c)%Q).
  { intros c prev. unfold EMA_step. cbn [add mul sub Q_Number].
    rewrite Hk. ring. }
  destruct i as [|i]; cbn [EMA_at]; apply Hstep.
Qed.

(** X8.  Period 1, in exact arithmetic.  The simple moving average is
    the close series one day late: its value on the day at position
    [i + 1] is the close of the day at position [i], and the last close
    is not in it.  The exponential moving average is the close series
    from its second day on. *)
Theorem period_one s :
  (exists r, get_SMA s 1 = Ok r
     /\ index r = drop 1 (index s)
     /\ Forall2 Qeq (values r) (take (length (items s) - 1) (values s)))
  /\ (1 < len (items s) ->
      exists e, get_EMA s 1 = Ok e
        /\ index e = drop 1 (index s)
        /\ Forall2 Qeq (values e) (drop 1 (values s))).
Proof.
  assert (Hm : Z.to_nat (len (items s) - 1) = (length (items s) - 1)%nat)
    by (unfold len; lia).
  assert (Hld : length (drop (Z.to_nat 1) (index s))
                = (length (items s) - 1)%nat).
  { rewrite length_drop, length_index. lia. }
  split.
  - eexists. split; [apply get_SMA_nonneg; lia|]. rewrite Hm.
    rewrite values_zip, index_zip by (by rewrite length_fmap, length_seq).
    split; [done|].
    apply Forall2_same_length_lookup_2.
    { rewrite length_fmap, length_seq, length_take, length_values. lia. }
    intros i x y Hx Hy.
    apply list_lookup_fmap_Some in Hx as (j & -> & Hj).
    apply lookup_seq in Hj as [-> Hi]. cbn [Nat.add].
    apply lookup_take_Some in Hy as [Hy _].
    unfold SMA_at, window.
    rewrite (drop_S _ _ _ Hy). change (Z.to_nat 1) with 1%nat.
    cbn [take]. rewrite take_0. cbn [div of_int Q_Number].
    rewrite np_sum_exact. cbn [fold_left]. change (inject_Z 1) with 1%Q.
    field.
  - intros Hn. eexists. split; [apply get_EMA_nonneg; lia|]. rewrite Hm.
    rewrite values_zip, index_zip by (by rewrite length_fmap, length_seq).
    split; [done|].
    apply Forall2_same_length_lookup_2.
    { rewrite length_fmap, length_seq, length_drop, length_values. lia. }
    intros i x y Hx Hy.
    apply list_lookup_fmap_Some in Hx as (j & -> & Hj).
    apply lookup_seq in Hj as [-> Hi]. cbn [Nat.add].
    rewrite lookup_drop in Hy.
    change (Z.to_nat 1) with 1%nat.
    rewrite EMA_at_one by reflexivity.
    unfold close_at. by rewrite Hy.
Qed.

End Exact_more.


(** ** More on the order of Python strings *)

Lemma leb_trans (a b c : string) :
  String.leb a b = true -> String.leb b c = true -> String.leb a c = true.
Proof.
  intros Hab Hbc. apply Is_true_true.
  apply (transitivity (R:=String.le) (y:=b)); by apply Is_true_true.
Qed.

Lemma leb_ltb_trans (a b c : string) :
  String.leb a b = true -> String.ltb b c = true -> String.ltb a c = true.
Proof.
  intros Hab Hbc. apply ltb_leb_ne in Hbc as [Hbc Hne].
  apply ltb_leb_ne. split; [by eapply leb_trans|].
  intros ->. apply Hne. by apply String.leb_antisym.
Qed.

Lemma filter_filter_implied {X} (f g : X -> bool) (l : list X) :
  (forall x, f x = true -> g x = true) ->
  List.filter f (List.filter g l) = List.filter f l.
Proof.
  intros Himp. induction l as [|x l IH]; [done|]. cbn.
  destruct (g x) eqn:Hg; cbn.
  - by rewrite IH.
  - destruct (f x) eqn:Hf; [|done]. apply Himp in Hf. congruence.
Qed.

Lemma for_loop_app {S X} (body : S -> X -> result S) (l1 l2 : list X) :
  forall s0, for_loop body (l1 ++ l2) s0
             = for_loop body l1 s0 ≫= for_loop body l2.
Proof.
  induction l1 as [|x l1 IH]; intros s0; [done|]. cbn.
  destruct (body s0 x) as [s1|e]; [|done]. cbn. apply IH.
Qed.

(** ** Ingestion: one file *)

Section Ingestion_more.
Context {C : Type}.
Variable pd_Timestamp : string -> result Timestamp.
Implicit Types (body : list (string * list C)) (cols : list string).
Implicit Types (start_date end_date : string).
Implicit Types (dir : list (string * result (raw_frame C))).

(** X9.  A file with a ["Date"] column is read exactly when the dates
    of the rows it keeps parse: a date outside the interval is never
    given to [pd.Timestamp], whatever it looks like.  A file without
    the column raises [KeyError], and what [pd.read_csv] raises is
    passed on. *)
Theorem read_frame_outcomes start_date end_date cols body :
  (is_Ok (read_frame pd_Timestamp start_date end_date (Ok (Dated cols body)))
   = true
   <-> Forall (fun row => is_Ok (pd_Timestamp row.1) = true)
         (List.filter (mask start_date end_date) body))
  /\ (forall rows : list (list C),
        read_frame pd_Timestamp start_date end_date (Ok (Undated cols rows))
        = Raise KeyError)
  /\ (forall e,
        read_frame (C:=C) pd_Timestamp start_date end_date (Raise e)
        = Raise e).
Proof.
  split; [|done]. rewrite read_frame_Dated.
  rewrite <- (Forall_fmap fst (fun d => is_Ok (pd_Timestamp d) = true)).
  rewrite mapM_is_Ok.
  by destruct (mapM pd_Timestamp _).
Qed.

(** X10.  An interval that ends at or before its start keeps no row:
    every file with a ["Date"] column gives the frame of its columns
    with no rows, and no date is parsed. *)
Theorem read_frame_empty_interval start_date end_date cols body :
  String.leb end_date start_date = true ->
  read_frame pd_Timestamp start_date end_date (Ok (Dated cols body))
  = Ok (mkDataFrame cols []).
Proof.
  intros Hle. rewrite read_frame_Dated.
  assert (Hnone : List.filter (mask start_date end_date) body = []).
  { induction body as [|row body' IH]; [done|]. cbn.
    destruct (mask start_date end_date row) eqn:Hrow; [|done].
    apply mask_spec in Hrow as [Hlo Hhi].
    apply ltb_leb_ne in Hlo as [Hlo Hne]. exfalso. apply Hne.
    apply String.leb_antisym; [done|]. by eapply leb_trans. }
  by rewrite Hnone.
Qed.

(** X11.  Reading a file that was first cut down to a wider interval
    gives what reading the whole file gives. *)
Theorem read_frame_nested start1 end1 start2 end2 cols body :
  String.leb start1 start2 = true -> String.leb end2 end1 = true ->
  read_frame pd_Timestamp start2 end2
    (Ok (Dated cols (List.filter (mask start1 end1) body)))
  = read_frame pd_Timestamp start2 end2 (Ok (Dated cols body)).
Proof.
  intros Hs He. rewrite !read_frame_Dated.
  rewrite filter_filter_implied; [done|].
  intros row Hrow. apply mask_spec in Hrow as [Hlo Hhi]. apply mask_spec.
  split; [by eapply leb_ltb_trans|by eapply leb_trans].
Qed.

End Ingestion_more.


(** ** Ingestion: the directory *)

Section Ingestion_directory.
Context {C : Type}.
Variable pd_Timestamp : string -> result Timestamp.
Implicit Types (start_date end_date : string).
Implicit Types (dir : list (string * result (raw_frame C))).
Implicit Types (data : gmap string (DataFrame C)).

(** A key that no file of the directory has keeps what it held. *)
Lemma get_data_loop_other start_date end_date dir (k : string) :
  forall data0 data,
  for_loop (get_data_body pd_Timestamp start_date end_date) dir data0
  = Ok data ->
  Forall (fun entry => key_of entry.1 <> k) dir ->
  data !! k = data0 !! k.
Proof.
  induction dir as [|[file_name file] dir IH]; intros data0 data Hloop Hk.
  - by injection Hloop as <-.
  - rewrite get_data_loop_cons in Hloop.
    apply Forall_cons in Hk as [Hk Hrest]. cbn [fst] in Hk.
    destruct (read_frame pd_Timestamp start_date end_date file) as [df|e];
      [|done].
    rewrite (IH _ _ Hloop Hrest). by rewrite lookup_insert_ne.
Qed.

(** The keys of the result: those held before, and those of the files. *)
Lemma get_data_loop_keys start_date end_date dir (k : string) :
  forall data0 data,
  for_loop (get_data_body pd_Timestamp start_date end_date) dir data0
  = Ok data ->
  is_Some (data !! k)
  <-> is_Some (data0 !! k) \/ exists entry, entry ∈ dir /\ key_of entry.1 = k.
Proof.
  induction dir as [|[file_name file] dir IH]; intros data0 data Hloop.
  - injection Hloop as <-. split; [by left|].
    intros [?|(entry & Hin & _)]; [done|]. by apply elem_of_nil in Hin.
  - rewrite get_data_loop_cons in Hloop.
    destruct (read_frame pd_Timestamp start_date end_date file) as [df|e];
      [|done].
    rewrite (IH _ _ Hloop). rewrite lookup_insert.
    destruct (decide (key_of file_name = k)) as [Heq|Hne].
    + split; [|intros _; left; by eexists].
      intros _. right. exists (file_name, file).
      split; [apply elem_of_cons; by left|done].
    + split.
      * intros [?|(entry & Hin & Hkey)]; [by left|].
        right. exists entry. split; [apply elem_of_cons; by right|done].
      * intros [?|(entry & Hin & Hkey)]; [by left|].
        apply elem_of_cons in Hin as [->|Hin]; [done|].
        right. by exists entry.
Qed.

(** X12.  When two files of a directory have the same key, the later
    one wins: the frame under a key is that of the last file with this
    key. *)
Theorem get_data_last_wins start_date end_date dir1 dir2 file_name file :
  Forall (fun entry =>
    is_Ok (read_frame pd_Timestamp start_date end_date entry.2) = true)
    (dir1 ++ (file_name, file) :: dir2) ->
  Forall (fun entry => key_of entry.1 <> key_of file_name) dir2 ->
  exists data df,
    get_data pd_Timestamp (dir1 ++ (file_name, file) :: dir2)
      start_date end_date = Ok data
    /\ read_frame pd_Timestamp start_date end_date file = Ok df
    /\ data !! key_of file_name = Some df.
Proof.
  intros Hall Hlater.
  destruct (proj1 (get_data_loop pd_Timestamp start_date end_date _ ∅) Hall)
    as (data & Hdata & _).
  exists data. pose proof Hdata as Hloop.
  rewrite for_loop_app in Hloop.
  destruct (for_loop _ dir1 ∅) as [data1|e1] eqn:H1; [|done].
  rewrite bind_Ok, get_data_loop_cons in Hloop.
  destruct (read_frame pd_Timestamp start_date end_date file) as [df|e];
    [|done].
  exists df. split; [exact Hdata|]. split; [done|].
  rewrite (get_data_loop_other _ _ _ _ _ _ Hloop Hlater).
  apply lookup_insert_eq.
Qed.

(** X13.  When every file is read, the keys of the mapping are exactly
    the keys of the files: the mapping of an empty directory is empty,
    and no key comes from anywhere else. *)
Theorem get_data_keys start_date end_date dir :
  Forall (fun entry =>
    is_Ok (read_frame pd_Timestamp start_date end_date entry.2) = true) dir ->
  exists data,
    get_data pd_Timestamp dir start_date end_date = Ok data
    /\ (forall k, is_Some (data !! k)
                  <-> exists entry, entry ∈ dir /\ key_of entry.1 = k)
    /\ (dir = [] -> data = ∅).
Proof.
  intros Hall.
  destruct (proj1 (get_data_loop pd_Timestamp start_date end_date _ ∅) Hall)
    as (data & Hloop & _).
  exists data. split; [exact Hloop|]. split.
  - intros k. rewrite (get_data_loop_keys _ _ _ k _ _ Hloop).
    rewrite lookup_empty. split; [|by right].
    intros [[? ?]|?]; done.
  - intros ->. by injection Hloop as <-.
Qed.

(** X14.  The exception of [get_data] is that of the first file that
    raises: the files before it are read, the files after it are not
    looked at. *)
Theorem get_data_first_failure start_date end_date dir1 dir2 file_name file e :
  Forall (fun entry =>
    is_Ok (read_frame pd_Timestamp start_date end_date entry.2) = true)
    dir1 ->
  read_frame pd_Timestamp start_date end_date file = Raise e ->
  get_data pd_Timestamp (dir1 ++ (file_name, file) :: dir2)
    start_date end_date = Raise e.
Proof.
  intros Hall Hfile. unfold get_data. rewrite for_loop_app.
  destruct (proj1 (get_data_loop pd_Timestamp start_date end_date _ ∅) Hall)
    as (data1 & -> & _).
  by rewrite bind_Ok, get_data_loop_cons, Hfile.
Qed.

End Ingestion_directory.


(** ** Strings and lists of characters *)

Lemma list_ascii_of_string_app (s t : string) :
  String.list_ascii_of_string (s +:+ t)
  = String.list_ascii_of_string s ++ String.list_ascii_of_string t.
Proof.
  induction s as [|c s IH]; [done|].
  change (String c s +:+ t) with (String c (s +:+ t)).
  cbn [String.list_ascii_of_string]. by rewrite IH.
Qed.

Lemma string_of_list_ascii_app (a b : list ascii) :
  String.string_of_list_ascii (a ++ b)
  = String.string_of_list_ascii a +:+ String.string_of_list_ascii b.
Proof.
  induction a as [|c a IH]; [done|]. cbn [app String.string_of_list_ascii].
  rewrite IH. done.
Qed.

Lemma length_string_of_list_ascii (l : list ascii) :
  String.length (String.string_of_list_ascii l) = length l.
Proof. induction l as [|c l IH]; cbn; congruence. Qed.

Lemma length_list_ascii_of_string (s : string) :
  length (String.list_ascii_of_string s) = String.length s.
Proof. induction s as [|c s IH]; cbn; congruence. Qed.

(** Two strings with ends of one length are equal only part by part. *)
Lemma append_inj_2 (s1 s2 t1 t2 : string) :
  String.length t1 = String.length t2 ->
  s1 +:+ t1 = s2 +:+ t2 -> s1 = s2 /\ t1 = t2.
Proof.
  intros Hlen Heq.
  apply (f_equal String.list_ascii_of_string) in Heq.
  rewrite !list_ascii_of_string_app in Heq.
  apply app_inj_2 in Heq as [H1 H2];
    [|by rewrite !length_list_ascii_of_string].
  split.
  - rewrite <- (String.string_of_list_ascii_of_string s1),
      <- (String.string_of_list_ascii_of_string s2). by rewrite H1.
  - rewrite <- (String.string_of_list_ascii_of_string t1),
      <- (String.string_of_list_ascii_of_string t2). by rewrite H2.
Qed.

(** ** Keys of the mapping, again *)

(** X15.  The key is a beginning of the file name: the name is its key
    followed by its last four characters, or by all of it when it has
    fewer than four, the key being empty then. *)
Theorem key_of_prefix (file_name : string) :
  exists ext,
    file_name = key_of file_name +:+ ext
    /\ String.length ext = Nat.min 4 (String.length file_name)
    /\ String.length (key_of file_name) = (String.length file_name - 4)%nat.
Proof.
  unfold key_of, slice_to.
  set (l := String.list_ascii_of_string file_name).
  assert (Hl : length l = String.length file_name)
    by apply length_list_ascii_of_string.
  change (-4 <? 0) with true. cbv iota.
  set (k := Z.to_nat (Z.max 0 (len l + -4))).
  assert (Hk : k = (length l - 4)%nat) by (unfold k, len; lia).
  exists (String.string_of_list_ascii (drop k l)).
  rewrite <- string_of_list_ascii_app, take_drop.
  rewrite !length_string_of_list_ascii, length_take, length_drop.
  split; [symmetry; apply String.string_of_list_ascii_of_string|]. lia.
Qed.


(** ** The close column and the candlesticks *)

Lemma getitem_nonneg_inv {X} (l : list X) (i : nat) (x : X) :
  getitem l (Z.of_nat i) = Ok x -> l !! i = Some x.
Proof.
  unfold getitem.
  destruct (Z.ltb_spec (Z.of_nat i) 0) as [?|_]; [lia|].
  destruct (Z.ltb_spec (Z.of_nat i) 0) as [?|_]; [lia|].
  rewrite Nat2Z.id. destruct (l !! i); [|done]. by intros [= ->].
Qed.

Lemma Timestamp_eq (a b : Timestamp) :
  year a = year b -> month a = month b -> day a = day b -> a = b.
Proof.
  destruct a as [ya ma da Ha], b as [yb mb db Hb]. cbn.
  intros -> -> ->. f_equal. apply proof_irrel.
Qed.

(** X16.  The ordinal of a date keeps the order of the calendar both
    ways, and two dates with one ordinal are one date. *)
Theorem date2num_order (a b : Timestamp) :
  (date2num a < date2num b <-> Timestamp_lt a b)
  /\ (date2num a = date2num b <-> a = b).
Proof.
  assert (Hcases : Timestamp_lt a b \/ Timestamp_lt b a
                   \/ (year a = year b /\ month a = month b
                       /\ day a = day b)).
  { rewrite !Timestamp_lt_spec. lia. }
  pose proof (date2num_mono a b) as Hab.
  pose proof (date2num_mono b a) as Hba.
  split; split.
  - intros Hlt. destruct Hcases as [?|[Hgt|(Hy & Hm & Hd)]]; [done|..].
    + apply Hba in Hgt. lia.
    + rewrite (Timestamp_eq a b Hy Hm Hd) in Hlt. lia.
  - exact Hab.
  - intros Heq. destruct Hcases as [Hlt|[Hgt|(Hy & Hm & Hd)]].
    + apply Hab in Hlt. lia.
    + apply Hba in Hgt. lia.
    + by apply Timestamp_eq.
  - by intros ->.
Qed.

Section Candlestick_more.
Context {A : Type} `{Number A}.
Implicit Types (df : DataFrame A) (s : Series A) (p : Z).

Lemma ADI_candle_index df : (rows (ADI_candle df)).*1 = (rows df).*1.
Proof.
  rewrite ADI_candle_rows, <- list_fmap_compose.
  apply list_fmap_ext. by intros i [ts cells] _.
Qed.

(** What [close_column] returns when it returns. *)
Lemma close_column_Ok df s :
  close_column df = Ok s ->
  index s = (rows df).*1
  /\ columns df !! 3%nat = Some (name s)
  /\ Forall2 (fun (r : Timestamp * list A) v => r.2 !! 3%nat = Some v)
       (rows df) (values s).
Proof.
  unfold close_column. intros Hs.
  destruct (mapM _ (rows df)) as [vals|e] eqn:Hvals; [|done].
  rewrite bind_Ok in Hs.
  destruct (getitem (columns df) 3) as [label|e] eqn:Hlabel; [|done].
  injection Hs as <-.
  apply mapM_Ok_Forall2 in Hvals.
  assert (Hlen : length vals = length (rows df).*1).
  { rewrite length_fmap. symmetry. by eapply Forall2_length. }
  rewrite values_zip, index_zip by done. cbn [name].
  split; [done|]. split; [by apply (getitem_nonneg_inv _ 3)|].
  eapply Forall2_impl; [exact Hvals|]. intros r v Hv. cbn in Hv.
  by apply (getitem_nonneg_inv _ 3).
Qed.

(** X17.  The close series of a frame: with four columns or more, in
    the frame and in each of its rows, it is the fourth cell of every
    row on the dates of the frame, named after the fourth column; a
    frame of fewer than four columns, with rows as wide as the frame,
    raises [IndexError]. *)
Theorem close_column_spec df :
  ((4 <= length (columns df))%nat ->
   Forall (fun r => 4 <= length r.2)%nat (rows df) ->
   exists s,
     close_column df = Ok s
     /\ index s = (rows df).*1
     /\ columns df !! 3%nat = Some (name s)
     /\ Forall2 (fun (r : Timestamp * list A) v => r.2 !! 3%nat = Some v)
          (rows df) (values s))
  /\ ((length (columns df) < 4)%nat ->
      Forall (fun r => length r.2 = length (columns df)) (rows df) ->
      close_column df = Raise IndexError).
Proof.
  split.
  - intros Hcols Hrows.
    assert (Hok : is_Ok (close_column df) = true).
    { unfold close_column.
      assert (Hvals : is_Ok (mapM (fun r : Timestamp * list A =>
                        getitem r.2 3) (rows df)) = true).
      { apply mapM_is_Ok. eapply Forall_impl; [exact Hrows|].
        intros r Hr. cbn in Hr.
        destruct (lookup_lt_is_Some_2 r.2 3) as [v Hv]; [lia|].
        change 3 with (Z.of_nat 3). by rewrite (getitem_lookup _ 3 _ Hv). }
      destruct (mapM _ (rows df)) as [vals|e]; [|done]. rewrite bind_Ok.
      destruct (lookup_lt_is_Some_2 (columns df) 3) as [label Hl]; [lia|].
      change 3 with (Z.of_nat 3). by rewrite (getitem_lookup _ 3 _ Hl). }
    destruct (close_column df) as [s|e] eqn:Hs; [|done].
    exists s. split; [done|]. by apply close_column_Ok.
  - intros Hcols Hrows. unfold close_column.
    destruct (rows df) as [|r rows'] eqn:Hr.
    + cbn. change (Z.to_nat 3) with 3%nat.
      by rewrite lookup_ge_None_2 by lia.
    + apply Forall_cons in Hrows as [Hwide _]. cbn.
      change (Z.to_nat 3) with 3%nat.
      assert (Hnone : r.2 !! 3%nat = None) by (apply lookup_ge_None_2; lia).
      by rewrite Hnone.
Qed.

(** X18.  The averages of the close series lie on candlesticks: their
    dates are the dates of the candlestick rows from row [p] on, one
    value for each of these rows. *)
Theorem averages_on_candlesticks df s p :
  close_column df = Ok s ->
  0 <= p < len (rows df) ->
  exists r e,
    get_SMA s p = Ok r /\ get_EMA s p = Ok e
    /\ index r = drop (Z.to_nat p) (rows (ADI_candle df)).*1
    /\ index e = drop (Z.to_nat p) (rows (ADI_candle df)).*1
    /\ len (items r) = len (rows df) - p
    /\ len (items e) = len (rows df) - p.
Proof.
  intros Hs Hp. apply close_column_Ok in Hs as (Hidx & _ & _).
  assert (Hn : length (items s) = length (rows df)).
  { rewrite <- length_index, Hidx. by rewrite length_fmap. }
  assert (Hld : length (drop (Z.to_nat p) (index s))
                = Z.to_nat (len (items s) - p)).
  { rewrite length_drop, length_index. unfold len. lia. }
  eexists _, _.
  split; [apply get_SMA_nonneg; lia|].
  split; [apply get_EMA_nonneg; unfold len in *; lia|].
  rewrite !index_zip by (by rewrite length_fmap, length_seq).
  rewrite ADI_candle_index, Hidx. split; [done|]. split; [done|].
  cbn [items]. unfold len.
  rewrite !length_zip, !length_fmap, !length_seq, length_drop, length_fmap.
  unfold len in *. split; lia.
Qed.

End Candlestick_more.


(** ** Names of the averages *)

Section Labels.
Context {A : Type} `{Number A}.
Implicit Types (s : Series A) (p q : Z).

Lemma get_SMA_name s p r :
  get_SMA s p = Ok r -> name r = pretty p +:+ "-SMA".
Proof.
  rewrite get_SMA_unfold. unfold pd_Series.
  destruct (decide _); [|done]. by intros [= <-].
Qed.

Lemma get_EMA_name s p e :
  get_EMA s p = Ok e -> name e = pretty p +:+ "-EMA".
Proof.
  unfold get_EMA. intros He.
  destruct (get_SMA s p) as [sma|]; [|done]. rewrite bind_Ok in He.
  destruct (getitem (values sma) 0) as [seed|]; [|done].
  rewrite bind_Ok in He.
  destruct (p + 1 =? 0); [done|]. rewrite bind_Ok in He.
  destruct (for_loop _ _ _) as [EMA|]; [|done]. rewrite bind_Ok in He.
  unfold pd_Series in He. destruct (decide _); [|done].
  by injection He as <-.
Qed.

(** X19.  The name of an average tells its kind and its period.  Every
    series [get_SMA] returns for the period [p] is named [p] followed
    by [-SMA], every series [get_EMA] returns [p] followed by [-EMA];
    two simple averages, or two exponential ones, have one name exactly
    when they have one period, and a simple average never has the name
    of an exponential one.  Nothing is asked of the other function: the
    simple average of a period beyond the series is covered. *)
Theorem moving_average_names s s' p q :
  (forall r, get_SMA s p = Ok r -> name r = pretty p +:+ "-SMA")
  /\ (forall e, get_EMA s p = Ok e -> name e = pretty p +:+ "-EMA")
  /\ (forall r r', get_SMA s p = Ok r -> get_SMA s' q = Ok r' ->
        (name r = name r' <-> p = q))
  /\ (forall e e', get_EMA s p = Ok e -> get_EMA s' q = Ok e' ->
        (name e = name e' <-> p = q))
  /\ (forall r e', get_SMA s p = Ok r -> get_EMA s' q = Ok e' ->
        name r <> name e').
Proof.
  split; [exact (get_SMA_name s p)|]. split; [exact (get_EMA_name s p)|].
  split; [|split].
  - intros r r' Hr Hr'. apply get_SMA_name in Hr, Hr'. rewrite Hr, Hr'.
    split; [|by intros ->]. intros Heq.
    apply append_inj_2 in Heq as [Heq _]; [|done]. by apply (inj pretty).
  - intros e e' He He'. apply get_EMA_name in He, He'. rewrite He, He'.
    split; [|by intros ->]. intros Heq.
    apply append_inj_2 in Heq as [Heq _]; [|done]. by apply (inj pretty).
  - intros r e' Hr He'. apply get_SMA_name in Hr. apply get_EMA_name in He'.
    rewrite Hr, He'. intros Heq. by apply append_inj_2 in Heq as [_ Heq].
Qed.

End Labels.


(** ** The further properties on the sample data *)

Lemma get_SMA_no_lookahead_witness :
  0 <= 3
  /\ exists r r',
       get_SMA (mkSeries "Close" (take 7 (items close10))) 3 = Ok r
       /\ get_SMA (mkSeries "Close"
                     (take 7 (items close10) ++ drop 7 (items close10))) 3
          = Ok r'
       /\ items r `prefix_of` items r'.
Proof.
  assert (Hp : 0 <= 3) by lia. split; [exact Hp|].
  exact (get_SMA_no_lookahead (mkSeries "Close" (take 7 (items close10)))
           (drop 7 (items close10)) 3 Hp).
Defined.

Lemma get_EMA_no_lookahead_witness :
  0 <= 3 < len (take 7 (items close10))
  /\ exists r r',
       get_EMA (mkSeries "Close" (take 7 (items close10))) 3 = Ok r
       /\ get_EMA (mkSeries "Close"
                     (take 7 (items close10) ++ drop 7 (items close10))) 3
          = Ok r'
       /\ items r `prefix_of` items r'.
Proof.
  assert (Hp : 0 <= 3 < len (take 7 (items close10)))
    by (change (len (take 7 (items close10))) with 7; lia).
  split; [exact Hp|].
  exact (get_EMA_no_lookahead (mkSeries "Close" (take 7 (items close10)))
           (drop 7 (items close10)) 3 Hp).
Defined.

Lemma get_SMA_drop_witness :
  0 <= 3
  /\ exists r r',
       get_SMA close10 3 = Ok r
       /\ get_SMA (mkSeries "Close" (drop 2 (items close10))) 3 = Ok r'
       /\ items r' = drop 2 (items r).
Proof.
  assert (Hp : 0 <= 3) by lia. split; [exact Hp|].
  exact (get_SMA_drop close10 3 2 Hp).
Defined.

Lemma moving_average_dates_witness :
  0 <= 3 < len (items close10)
  /\ Sorted Timestamp_lt (index close10)
  /\ exists r e,
       get_SMA close10 3 = Ok r /\ get_EMA close10 3 = Ok e
       /\ index e = index r
       /\ Sorted Timestamp_lt (index r).
Proof.
  assert (Hp : 0 <= 3 < len (items close10)) by (rewrite len_close10; lia).
  assert (Hsorted : Sorted Timestamp_lt (index close10))
    by (repeat constructor).
  split; [exact Hp|]. split; [exact Hsorted|].
  destruct (moving_average_dates close10 3 Hp)
    as (r & e & Hr & He & Hidx & _ & Hkeep).
  exists r, e. repeat split; [exact Hr|exact He|exact Hidx|exact (Hkeep Hsorted)].
Defined.

Lemma get_EMA_between_witness :
  1 <= 3 < len (items close10)
  /\ Forall (fun x => 1 <= x /\ x <= 10)%Q (values close10)
  /\ exists r, get_EMA close10 3 = Ok r
       /\ Forall (fun v => 1 <= v /\ v <= 10)%Q (values r).
Proof.
  assert (Hp : 1 <= 3 < len (items close10)) by (rewrite len_close10; lia).
  assert (Hall : Forall (fun x => 1 <= x /\ x <= 10)%Q (values close10)).
  { repeat constructor; by vm_compute. }
  split; [exact Hp|]. split; [exact Hall|].
  exact (get_EMA_between 1 10 close10 3 Hp Hall).
Defined.

Lemma period_one_witness :
  1 < len (items close10)
  /\ exists e, get_EMA close10 1 = Ok e
       /\ index e = drop 1 (index close10)
       /\ Forall2 Qeq (values e) (drop 1 (values close10)).
Proof.
  assert (Hn : 1 < len (items close10)) by (rewrite len_close10; lia).
  split; [exact Hn|]. exact (proj2 (period_one close10) Hn).
Defined.

Lemma constant_series_witness :
  let s := mkSeries "Close"
             (zip (take 4 trading_days) (replicate 4 (6008 # 100))) in
  1 <= 3 < len (items s)
  /\ Forall (fun x => x == 6008 # 100)%Q (values s)
  /\ exists r e,
       get_SMA s 3 = Ok r /\ get_EMA s 3 = Ok e
       /\ Forall (fun v => v == 6008 # 100)%Q (values r)
       /\ Forall (fun v => v == 6008 # 100)%Q (values e).
Proof.
  intros s.
  assert (Hp : 1 <= 3 < len (items s)) by (change (len (items s)) with 4; lia).
  assert (Hall : Forall (fun x => x == 6008 # 100)%Q (values s)).
  { repeat constructor. }
  split; [exact Hp|]. split; [exact Hall|].
  exact (constant_series s 3 (6008 # 100) Hp Hall).
Defined.

Lemma get_data_last_wins_witness :
  let dir : list (string * result (raw_frame Q)) :=
    [("01ADI.csv", Ok in_order)] ++ ("01ADI.txt", Ok out_of_order) :: [] in
  Forall (fun entry =>
    is_Ok (read_frame iso_Timestamp "2015-01-01" "2015-12-31" entry.2) = true)
    dir
  /\ exists data df,
       get_data iso_Timestamp dir "2015-01-01" "2015-12-31" = Ok data
       /\ read_frame iso_Timestamp "2015-01-01" "2015-12-31" (Ok out_of_order)
          = Ok df
       /\ data !! key_of "01ADI.txt" = Some df.
Proof.
  intros dir.
  assert (Hall : Forall (fun entry : string * result (raw_frame Q) =>
    is_Ok (read_frame iso_Timestamp "2015-01-01" "2015-12-31" entry.2) = true)
    dir) by (repeat constructor).
  split; [exact Hall|].
  exact (get_data_last_wins iso_Timestamp "2015-01-01" "2015-12-31"
           [("01ADI.csv", Ok in_order)] [] "01ADI.txt" (Ok out_of_order)
           Hall (List.Forall_nil _)).
Defined.

Lemma get_data_keys_witness :
  let dir : list (string * result (raw_frame Q)) :=
    [("01ADI.csv", Ok in_order); ("02AEE.csv", Ok out_of_order)] in
  Forall (fun entry =>
    is_Ok (read_frame iso_Timestamp "2015-01-01" "2015-12-31" entry.2) = true)
    dir
  /\ exists data,
       get_data iso_Timestamp dir "2015-01-01" "2015-12-31" = Ok data
       /\ forall k, is_Some (data !! k)
                    <-> exists entry, entry ∈ dir /\ key_of entry.1 = k.
Proof.
  intros dir.
  assert (Hall : Forall (fun entry : string * result (raw_frame Q) =>
    is_Ok (read_frame iso_Timestamp "2015-01-01" "2015-12-31" entry.2) = true)
    dir) by (repeat constructor).
  split; [exact Hall|].
  destruct (get_data_keys iso_Timestamp "2015-01-01" "2015-12-31" dir Hall)
    as (data & Hdata & Hkeys & _).
  exists data. split; [exact Hdata|exact Hkeys].
Defined.

Lemma get_data_first_failure_witness :
  Forall (fun entry : string * result (raw_frame Q) =>
    is_Ok (read_frame iso_Timestamp "2015-01-01" "2015-12-31" entry.2) = true)
    [("01ADI.csv", Ok in_order)]
  /\ read_frame iso_Timestamp "2015-01-01" "2015-12-31" (Ok no_date)
     = Raise KeyError
  /\ get_data iso_Timestamp
       ([("01ADI.csv", Ok in_order)]
        ++ ("02AEE.csv", Ok no_date) :: [("03AMD.csv", Ok bad_date)])
       "2015-01-01" "2015-12-31" = Raise KeyError.
Proof.
  assert (Hall : Forall (fun entry : string * result (raw_frame Q) =>
    is_Ok (read_frame iso_Timestamp "2015-01-01" "2015-12-31" entry.2) = true)
    [("01ADI.csv", Ok in_order)]) by (repeat constructor).
  split; [exact Hall|]. split; [reflexivity|].
  exact (get_data_first_failure iso_Timestamp "2015-01-01" "2015-12-31"
           _ _ "02AEE.csv" (Ok no_date) KeyError Hall eq_refl).
Defined.

Lemma read_frame_empty_interval_witness :
  String.leb "2015-01-01" "2015-12-31" = true
  /\ read_frame iso_Timestamp "2015-12-31" "2015-01-01"
       (Ok (Dated yahoo_columns [("2015-02-30", [61; 62]%Q)]))
     = Ok (mkDataFrame yahoo_columns []).
Proof.
  assert (Hle : String.leb "2015-01-01" "2015-12-31" = true) by reflexivity.
  split; [exact Hle|].
  exact (read_frame_empty_interval iso_Timestamp "2015-12-31" "2015-01-01"
           yahoo_columns _ Hle).
Defined.

Lemma read_frame_nested_witness :
  let body := [("2014-06-30", [61; 62]%Q); ("2015-01-02", [61; 63]%Q);
               ("2016-03-01", [62; 64]%Q)] in
  String.leb "2014-01-01" "2015-01-01" = true
  /\ String.leb "2015-12-31" "2016-12-31" = true
  /\ read_frame iso_Timestamp "2015-01-01" "2015-12-31"
       (Ok (Dated yahoo_columns
              (List.filter (mask "2014-01-01" "2016-12-31") body)))
     = read_frame iso_Timestamp "2015-01-01" "2015-12-31"
         (Ok (Dated yahoo_columns body)).
Proof.
  intros body.
  assert (Hs : String.leb "2014-01-01" "2015-01-01" = true) by reflexivity.
  assert (He : String.leb "2015-12-31" "2016-12-31" = true) by reflexivity.
  split; [exact Hs|]. split; [exact He|].
  exact (read_frame_nested iso_Timestamp "2014-01-01" "2016-12-31"
           "2015-01-01" "2015-12-31" yahoo_columns body Hs He).
Defined.

Lemma key_of_four_witness :
  String.length ".csv" = 4%nat /\ key_of ("01ADI" +:+ ".csv") = "01ADI".
Proof.
  assert (Hext : String.length ".csv" = 4%nat) by reflexivity.
  split; [exact Hext|]. exact (key_of_four "01ADI" ".csv" Hext).
Defined.

Lemma close_column_spec_witness :
  (4 <= length (columns ADI_2015))%nat
  /\ Forall (fun r => 4 <= length r.2)%nat (rows ADI_2015)
  /\ (exists s, close_column ADI_2015 = Ok s /\ name s = "Close"
        /\ index s = [Jan02; Jan05; Dec31])
  /\ close_column (mkDataFrame ["Open"; "Close"] [(Jan02, [61; 62]%Q)])
     = Raise IndexError.
Proof.
  assert (Hcols : (4 <= length (columns ADI_2015))%nat) by (cbn; lia).
  assert (Hrows : Forall (fun r => 4 <= length r.2)%nat (rows ADI_2015))
    by (repeat constructor; cbn; lia).
  split; [exact Hcols|]. split; [exact Hrows|]. split.
  - destruct (proj1 (close_column_spec ADI_2015) Hcols Hrows)
      as (s & Hs & Hidx & Hname & _).
    exists s. split; [exact Hs|]. split; [|exact Hidx].
    cbn in Hname. by injection Hname.
  - apply (proj2 (close_column_spec
                    (mkDataFrame ["Open"; "Close"] [(Jan02, [61; 62]%Q)]))).
    + cbn. lia.
    + repeat constructor.
Defined.

Lemma averages_on_candlesticks_witness :
  0 <= 1 < len (rows ADI_2015)
  /\ exists s r e,
       close_column ADI_2015 = Ok s
       /\ get_SMA s 1 = Ok r /\ get_EMA s 1 = Ok e
       /\ index r = drop 1 (rows (ADI_candle ADI_2015)).*1
       /\ index e = drop 1 (rows (ADI_candle ADI_2015)).*1.
Proof.
  assert (Hp : 0 <= 1 < len (rows ADI_2015))
    by (change (len (rows ADI_2015)) with 3; lia).
  split; [exact Hp|].
  assert (Hs : close_column ADI_2015
               = Ok (mkSeries "Close"
                       [(Jan02, 62%Q); (Jan05, 63%Q); (Dec31, 64%Q)]))
    by reflexivity.
  destruct (averages_on_candlesticks ADI_2015 _ 1 Hs Hp)
    as (r & e & Hr & He & Hir & Hie & _).
  exists (mkSeries "Close" [(Jan02, 62%Q); (Jan05, 63%Q); (Dec31, 64%Q)]),
    r, e.
  split; [exact Hs|].
  repeat split; [exact Hr|exact He|exact Hir|exact Hie].
Defined.

(** [moving_average_names] at the ten closes: the simple average of
    period 12, which is empty and has no exponential one beside it, and
    the averages of period 3. *)
Lemma moving_average_names_witness :
  exists r r' e',
    get_SMA close10 12 = Ok r /\ get_SMA close10 3 = Ok r'
    /\ get_EMA close10 3 = Ok e'
    /\ name r = pretty 12 +:+ "-SMA"
    /\ (name r = name r' <-> 12 = 3)
    /\ name r <> name e'
    /\ name e' = pretty 3 +:+ "-EMA".
Proof.
  assert (Hr := get_SMA_nonneg close10 12 ltac:(lia)).
  assert (Hr' := get_SMA_nonneg close10 3 ltac:(lia)).
  assert (He' := get_EMA_nonneg close10 3 ltac:(rewrite len_close10; lia)).
  destruct (moving_average_names close10 close10 12 3)
    as (Hname & _ & Hsame & _ & Hne).
  destruct (moving_average_names close10 close10 3 3) as (_ & Hname' & _).
  eexists _, _, _.
  split; [exact Hr|]. split; [exact Hr'|]. split; [exact He'|].
  split; [exact (Hname _ Hr)|]. split; [exact (Hsame _ _ Hr Hr')|].
  split; [exact (Hne _ _ Hr He')|exact (Hname' _ He')].
Defined.


(** ** Adjacent intervals, three-letter extensions, file to candlesticks *)

Section Ingestion_intervals.
Context {C : Type}.
Implicit Types (body : list (string * list C)) (a b c : string).

Lemma mask_adjacent a b c (row : string * list C) :
  String.leb a b = true -> String.leb b c = true ->
  mask a c row = mask a b row || mask b c row
  /\ mask a b row && mask b c row = false.
Proof.
  intros Hab Hbc. unfold mask.
  rewrite (leb_negb_ltb row.1 b).
  destruct (String.ltb b row.1) eqn:Hbd; cbn [negb].
  - rewrite (leb_ltb_trans a b row.1 Hab Hbd).
    by destruct (String.leb row.1 c).
  - assert (Hdb : String.leb row.1 b = true)
      by (by rewrite leb_negb_ltb, Hbd).
    rewrite (leb_trans row.1 b c Hdb Hbc).
    by destruct (String.ltb a row.1).
Qed.

(** X20.  Two intervals that meet, [(a, b]] and [(b, c]], share no row
    and lose none: a row is kept for [(a, c]] exactly when it is kept
    for one of them, never for both, and the numbers of kept rows add
    up. *)
Theorem mask_adjacent_intervals a b c body :
  String.leb a b = true -> String.leb b c = true ->
  (forall row : string * list C,
     mask a c row = mask a b row || mask b c row
     /\ mask a b row && mask b c row = false)
  /\ length (List.filter (mask a c) body)
     = (length (List.filter (mask a b) body)
        + length (List.filter (mask b c) body))%nat.
Proof.
  intros Hab Hbc. split; [intros row; by apply mask_adjacent|].
  induction body as [|row body IH]; [done|]. cbn.
  destruct (mask_adjacent a b c row Hab Hbc) as [Hor Hand].
  rewrite Hor.
  destruct (mask a b row), (mask b c row); cbn in *; try done; lia.
Qed.

End Ingestion_intervals.

(** X21.  A file name that ends in a dot and three characters, as
    [.csv] does, has the name before the dot as its key. *)
Theorem key_of_extension (stem : string) (x y z : ascii) :
  key_of (stem +:+ String "." (String x (String y (String z EmptyString))))
  = stem.
Proof. by apply key_of_four. Qed.

Section File_to_candlesticks.
Context {A : Type} `{Number A}.
Variable pd_Timestamp : string -> result Timestamp.

(** X22.  From the file to the candlesticks: when the dates of the
    kept rows of a file parse, the candlestick frame of the frame read
    has one row for each kept row, in order, holding the ordinal of its
    date and its first four cells. *)
Theorem candlesticks_of_file start_date end_date cols
    (body : list (string * list A)) :
  Forall (fun row => is_Ok (pd_Timestamp row.1) = true)
    (List.filter (mask start_date end_date) body) ->
  exists df,
    read_frame pd_Timestamp start_date end_date (Ok (Dated cols body)) = Ok df
    /\ columns (ADI_candle df) = "Date" :: take 4 cols
    /\ Forall2 (fun (row : string * list A) (candle : Timestamp * list A) =>
         pd_Timestamp row.1 = Ok candle.1
         /\ candle.2 = of_int (date2num candle.1) :: take 4 row.2)
         (List.filter (mask start_date end_date) body)
         (rows (ADI_candle df)).
Proof.
  intros Hparse.
  set (kept := List.filter (mask start_date end_date) body) in *.
  assert (Hok : is_Ok (mapM pd_Timestamp kept.*1) = true).
  { apply mapM_is_Ok. by apply Forall_fmap. }
  destruct (mapM pd_Timestamp kept.*1) as [dates|e] eqn:Hdates; [|done].
  exists (mkDataFrame cols (zip dates kept.*2)).
  split. { rewrite read_frame_Dated. fold kept. by rewrite Hdates. }
  split; [done|].
  apply mapM_Ok_Forall2 in Hdates.
  pose proof (Forall2_zip_rows pd_Timestamp _ _ Hdates) as Hrows.
  rewrite ADI_candle_rows. cbn [rows].
  apply Forall2_fmap_r.
  eapply Forall2_impl; [exact Hrows|].
  intros row r [Hts Hcells]. cbn. by rewrite Hcells.
Qed.

End File_to_candlesticks.

Lemma mask_adjacent_intervals_witness :
  let body := [("2014-12-31", [61]%Q); ("2015-12-31", [62]%Q);
               ("2016-01-04", [63]%Q); ("2016-12-31", [64]%Q)] in
  String.leb "2014-12-31" "2015-12-31" = true
  /\ String.leb "2015-12-31" "2016-12-31" = true
  /\ length (List.filter (mask "2014-12-31" "2016-12-31") body)
     = (length (List.filter (mask "2014-12-31" "2015-12-31") body)
        + length (List.filter (mask "2015-12-31" "2016-12-31") body))%nat.
Proof.
  intros body.
  assert (Hab : String.leb "2014-12-31" "2015-12-31" = true) by reflexivity.
  assert (Hbc : String.leb "2015-12-31" "2016-12-31" = true) by reflexivity.
  split; [exact Hab|]. split; [exact Hbc|].
  exact (proj2 (mask_adjacent_intervals "2014-12-31" "2015-12-31"
                  "2016-12-31" body Hab Hbc)).
Defined.

Lemma candlesticks_of_file_witness :
  let body :=
    match in_order with Dated _ body => body | Undated _ _ => [] end in
  Forall (fun row => is_Ok (iso_Timestamp row.1) = true)
    (List.filter (mask "2015-01-01" "2015-12-31") body)
  /\ exists df,
       read_frame iso_Timestamp "2015-01-01" "2015-12-31"
         (Ok (Dated yahoo_columns body)) = Ok df
       /\ columns (ADI_candle df) = "Date" :: take 4 yahoo_columns.
Proof.
  intros body.
  assert (Hparse : Forall (fun row => is_Ok (iso_Timestamp row.1) = true)
            (List.filter (mask "2015-01-01" "2015-12-31") body))
    by (repeat constructor).
  split; [exact Hparse|].
  destruct (candlesticks_of_file iso_Timestamp "2015-01-01" "2015-12-31"
              yahoo_columns body Hparse) as (df & Hdf & Hcols & _).
  exists df. split; [exact Hdf|exact Hcols].
Defined.
